(** * Signal generation and trade dispatch of the trading bot

    A shallow embedding of
      - [src/models/signal_generator.py]
        ([MovingAverageCrossoverSignalGenerator]),
      - [src/trading_engine.py] ([TradingEngine.execute_trade]),
      - [src/data_fetcher.py], [src/config_manager.py] and the lines of
        [main.py] that use them,
    together with the statements of the specification that concern them.

    Conventions of the embedding.
      - A Python call either returns a value or raises: [Exn + A], with
        [inl e] for "raises [e]" and [inr a] for "returns [a]".
      - A float is a rational ([Q]) or NaN ([None]); every finite
        binary64 value is a rational, and the order comparisons of the
        code are those of the rationals.
      - The rolling mean comes twice.  [rolling_mean] is the exact mean
        of each window: it has pandas' shape (the length of the column,
        NaN in the first [window - 1] rows and wherever a window holds a
        NaN, an error for a negative window) but not its rounding, since
        pandas carries one binary64 running sum along the column.
        [generate_signal] is the code over these exact means.
        [generate_signal_run] is the same code over whatever series the
        rolling means returned, taken as a parameter, together with the
        log records the code writes; what is stated of it holds of the
        series the code computed, rounded as pandas rounds them.
      - The trading engine's effects (the gateway requests and the log
        records) are threaded through an explicit [World]. *)

From Stdlib Require Import QArith ZArith Lia Lqa.
From stdpp Require Import base option list strings gmap.

Local Open Scope string_scope.
Local Open Scope list_scope.
Local Open Scope Z_scope.

(** ** Python values and exceptions *)

(** The exception classes that occur.  All of them derive from Python's
    [Exception]; the ccxt ones are kept apart as [execute_trade]'s
    [except] clauses tell them apart. *)
Inductive Exn : Type :=
  | ValueError (msg : string)
  | IndexError
  | InsufficientFunds (msg : string)
  | NetworkError (msg : string)
  | ExchangeError (msg : string)
  | OtherException (msg : string).

#[global] Instance exn_ret : MRet (sum Exn) := λ A, inr.
#[global] Instance exn_bind : MBind (sum Exn) :=
  λ A B f m, match m with inl e => inl e | inr a => f a end.

(** The three signals, as the strings the code passes around. *)
Definition BUY : string := "BUY".
Definition SELL : string := "SELL".
Definition HOLD : string := "HOLD".

(** ** The part of pandas the signal generator uses *)

(** One float of a column: [None] is NaN. *)
Abbreviation Cell := (option Q) (only parsing).

(** [pd.isna(x)] *)
Definition isna (c : Cell) : bool :=
  match c with None => true | Some _ => false end.

(** [s.isna().sum()] *)
Definition isna_sum (s : list Cell) : nat := length (filter (λ c, isna c = true) s).

(** [s.iloc[-k]] for [k >= 1]: the [k]-th value from the end; raises
    [IndexError] when the series has fewer than [k] values. *)
Definition iloc_neg (s : list Cell) (k : nat) : Exn + Cell :=
  if (k <=? length s)%nat
  then match s !! (length s - k)%nat with
       | Some c => inr c
       | None => inl IndexError
       end
  else inl IndexError.

Definition Qsum (l : list Q) : Q := foldr Qplus 0%Q l.

(** The values of the window that ends at row [i]: rows
    [i+1-w .. i], cut at the start of the series. *)
Definition window_at (w : nat) (xs : list Cell) (i : nat) : list Cell :=
  drop (S i - w) (take (S i) xs).

(** The mean of one window: the mean of its non-NaN observations when
    there are at least [minp] of them (and at least one), NaN otherwise.
    The mean is exact: the rounding of pandas' running sum is not part
    of it. *)
Definition window_mean (minp : nat) (win : list Cell) : Cell :=
  let obs := omap id win in
  let nobs := length obs in
  if ((minp <=? nobs)%nat && (0 <? nobs)%nat)%bool
  then Some (Qsum obs / inject_Z (Z.of_nat nobs))%Q
  else None.

(** [s.rolling(window=w).mean()], with pandas' default
    [min_periods = window]; a negative window is refused with a
    [ValueError].  Each average is the exact mean of its window; see
    [generate_signal_run] for the code over the series as computed. *)
Definition rolling_mean (window : Z) (xs : list Cell) : Exn + list Cell :=
  if window <? 0
  then inl (ValueError "window must be an integer 0 or greater")
  else
    let w := Z.to_nat window in
    inr (map (λ i, window_mean w (window_at w xs i)) (seq 0 (length xs))).

(** A DataFrame: the length of its index and its columns by label. *)
Record DataFrame : Type := {
  df_index_len : nat;
  df_columns : gmap string (list Cell)
}.

(** pandas keeps every column as long as the index. *)
Definition df_wf (df : DataFrame) : Prop :=
  map_Forall (λ _ col, length col = df_index_len df) (df_columns df).

(** [df.empty]: one of the two axes has length 0. *)
Definition df_empty (df : DataFrame) : bool :=
  ((df_index_len df =? 0)%nat || (size (df_columns df) =? 0)%nat)%bool.

(** What a caller may hand to [generate_signal]. *)
Inductive PyValue : Type :=
  | PyNone
  | PyList (items : list Q)
  | PyStr (s : string)
  | PyDataFrame (df : DataFrame).

(** A frame with the single column [close]. *)
Definition close_frame (closes : list Cell) : DataFrame :=
  {| df_index_len := length closes; df_columns := {[ "close" := closes ]} |}.

Definition prices (l : list Z) : list Cell := map (λ z, Some (inject_Z z)) l.

(** ** [MovingAverageCrossoverSignalGenerator] *)

Record MovingAverageCrossoverSignalGenerator : Type := {
  short_window : Z;
  long_window : Z
}.

(** [__init__] *)
Definition init (short_window long_window : Z)
  : Exn + MovingAverageCrossoverSignalGenerator :=
  if short_window >=? long_window
  then inl (ValueError "short_window must be less than long_window")
  else inr {| short_window := short_window; long_window := long_window |}.

(** Order comparisons of floats: every comparison with NaN is [False]. *)
Definition float_le (a b : Cell) : bool :=
  match a, b with Some x, Some y => Qle_bool x y | _, _ => false end.
Definition float_lt (a b : Cell) : bool :=
  match a, b with Some x, Some y => negb (Qle_bool y x) | _, _ => false end.
Definition float_ge (a b : Cell) : bool := float_le b a.
Definition float_gt (a b : Cell) : bool := float_lt b a.

(** Lines 129-136: the decision on the four trailing averages. *)
Definition crossover (current_short_sma previous_short_sma
                      current_long_sma previous_long_sma : Cell) : string :=
  if (float_gt current_short_sma current_long_sma
      && float_le previous_short_sma previous_long_sma)%bool then BUY
  else if (float_lt current_short_sma current_long_sma
           && float_ge previous_short_sma previous_long_sma)%bool then SELL
  else HOLD.

(** Line 111: the guard on the number of NaN averages. *)
Definition nan_guard (sma_short sma_long : list Cell) : bool :=
  ((Z.of_nat (isna_sum sma_short) >=? Z.of_nat (length sma_short) - 1)
   || (Z.of_nat (isna_sum sma_long) >=? Z.of_nat (length sma_long) - 1))%bool.

(** Lines 116-136: read the four trailing averages and decide. *)
Definition read_and_decide (sma_short sma_long : list Cell) : Exn + string :=
  current_short_sma ← iloc_neg sma_short 1;
  previous_short_sma ← iloc_neg sma_short 2;
  current_long_sma ← iloc_neg sma_long 1;
  previous_long_sma ← iloc_neg sma_long 2;
  if (isna current_short_sma || isna previous_short_sma
      || isna current_long_sma || isna previous_long_sma)%bool
  then mret HOLD
  else mret (crossover current_short_sma previous_short_sma
                       current_long_sma previous_long_sma).

(** [generate_signal] *)
Definition generate_signal (self : MovingAverageCrossoverSignalGenerator)
    (historical_data : PyValue) : Exn + string :=
  match historical_data with
  | PyDataFrame df =>
      if df_empty df then mret HOLD
      else match df_columns df !! "close" with
      | None => mret HOLD
      | Some close =>
          if Z.of_nat (df_index_len df) <? long_window self then mret HOLD
          else
            match (sma_short ← rolling_mean (short_window self) close;
                   sma_long ← rolling_mean (long_window self) close;
                   mret (sma_short, sma_long)) with
            | inl _ => mret HOLD
            | inr (sma_short, sma_long) =>
                if nan_guard sma_short sma_long then mret HOLD
                else read_and_decide sma_short sma_long
            end
      end
  | _ => mret HOLD
  end.

(** The pair (short average, long average) [k] rows from the end, as
    lines 103-104 and 116-119 compute and read it. *)
Definition averages_at (self : MovingAverageCrossoverSignalGenerator)
    (close : list Cell) (k : nat) : Exn + (Cell * Cell) :=
  sma_short ← rolling_mean (short_window self) close;
  sma_long ← rolling_mean (long_window self) close;
  s ← iloc_neg sma_short k;
  l ← iloc_neg sma_long k;
  mret (s, l).

(** The specification's words for a bullish crossing: the short average
    exceeds the long one at the last row, and was at or below it at the
    row before. *)
Definition short_exceeds_long (self : MovingAverageCrossoverSignalGenerator)
    (close : list Cell) : Exn + bool :=
  p ← averages_at self close 1; mret (float_gt p.1 p.2).

Definition short_was_at_or_below (self : MovingAverageCrossoverSignalGenerator)
    (close : list Cell) : Exn + bool :=
  p ← averages_at self close 2; mret (float_le p.1 p.2).

(** ** [TradingEngine] *)

(** A dict of the gateway: an order result with its fields by name. *)
Inductive PyField : Type :=
  | FStr (s : string)
  | FNum (q : Q).

Definition OrderResult : Type := gmap string PyField.

(** A request to the gateway: [create_market_buy_order(symbol, quantity)]
    or [create_market_sell_order(symbol, quantity)]. *)
Inductive GatewayCall : Type :=
  | MarketBuy (symbol : string) (quantity : Q)
  | MarketSell (symbol : string) (quantity : Q).

(** The ccxt exchange object, by what it answers to a request: it
    returns an order result (or [None], as the mock of the module does
    for a symbol it does not know) or raises. *)
Record Exchange : Type := {
  create_market_buy_order : string → Q → Exn + option OrderResult;
  create_market_sell_order : string → Q → Exn + option OrderResult
}.

(** [ExchangeHandler]: its [exchange] attribute is [None] when the
    connection could not be set up. *)
Record ExchangeHandler : Type := {
  exchange : option Exchange
}.

Record TradingEngine : Type := {
  exchange_handler : option ExchangeHandler;
  config : gmap string string
}.

(** [TradingEngine.__init__]: [config if config else {}] *)
Definition TradingEngine_init (exchange_handler : option ExchangeHandler)
    (config : option (gmap string string)) : TradingEngine :=
  {| exchange_handler := exchange_handler;
     config := match config with
               | Some c => if decide (c = ∅) then ∅ else c
               | None => ∅
               end |}.

Inductive LogLevel : Type := DEBUG | INFO | WARNING | ERROR.

(** The log records of [execute_trade], by message and its arguments. *)
Inductive LogMessage : Type :=
  | NotInitialized
  | AttemptBuy (quantity : Q) (symbol : string)
  | BuySuccessful (symbol : string) (order_result : option OrderResult)
  | AttemptSell (quantity : Q) (symbol : string)
  | SellSuccessful (symbol : string) (order_result : option OrderResult)
  | SignalIsHold (symbol : string)
  | InvalidSignal (signal symbol : string)
  | FullOrderResult (symbol signal : string) (order_result : option OrderResult)
  | InsufficientFundsFor (signal symbol : string) (e : Exn)
  | NetworkErrorDuring (signal symbol : string) (e : Exn)
  | ExchangeErrorDuring (signal symbol : string) (e : Exn)
  | UnexpectedError (signal symbol : string) (e : Exn).

(** What [execute_trade] acts on: the requests the gateway has received
    and the records the logger has written, oldest first. *)
Record World : Type := {
  gateway_calls : list GatewayCall;
  log_records : list (LogLevel * LogMessage)
}.

(** A computation that acts on the world and returns or raises. *)
Definition Eff (A : Type) : Type := World → (Exn + A) * World.

#[global] Instance eff_ret : MRet Eff := λ A a w, (inr a, w).
#[global] Instance eff_bind : MBind Eff :=
  λ A B f m w,
    match m w with
    | (inl e, w') => (inl e, w')
    | (inr a, w') => f a w'
    end.

(** [try: body except Exception as e: handler e] *)
Definition try_except {A} (body : Eff A) (handler : Exn → Eff A) : Eff A :=
  λ w, match body w with
       | (inl e, w') => handler e w'
       | (inr a, w') => (inr a, w')
       end.

Definition log (level : LogLevel) (msg : LogMessage) : Eff unit :=
  λ w, (inr (), {| gateway_calls := gateway_calls w;
                   log_records := log_records w ++ [(level, msg)] |}).

(** One request to the gateway: it is received, then answered. *)
Definition request (ex : Exchange) (c : GatewayCall) : Eff (option OrderResult) :=
  λ w, (match c with
        | MarketBuy symbol quantity => create_market_buy_order ex symbol quantity
        | MarketSell symbol quantity => create_market_sell_order ex symbol quantity
        end,
        {| gateway_calls := gateway_calls w ++ [c];
           log_records := log_records w |}).

(** [execute_trade] *)
Definition execute_trade (self : TradingEngine) (symbol signal : string)
    (quantity : Q) : Eff (option OrderResult) :=
  match exchange_handler self ≫= exchange with
  | None =>
      log ERROR NotInitialized;;
      mret None
  | Some ex =>
      try_except
        (* the dispatch yields [Some r] where control goes on to line 56
           with [order_result = r], and [None] where the branch itself
           returns [None] (lines 51 and 54) *)
        (order_result ←
           (if String.eqb signal "BUY" then
              log INFO (AttemptBuy quantity symbol);;
              order_result ← request ex (MarketBuy symbol quantity);
              log INFO (BuySuccessful symbol order_result);;
              mret (Some order_result)
            else if String.eqb signal "SELL" then
              log INFO (AttemptSell quantity symbol);;
              order_result ← request ex (MarketSell symbol quantity);
              log INFO (SellSuccessful symbol order_result);;
              mret (Some order_result)
            else if String.eqb signal "HOLD" then
              log INFO (SignalIsHold symbol);;
              mret None
            else
              log WARNING (InvalidSignal signal symbol);;
              mret None);
         match order_result with
         | None => mret None
         | Some order_result =>
             log DEBUG (FullOrderResult symbol signal order_result);;
             mret order_result
         end)
        (λ e,
           match e with
           | InsufficientFunds _ =>
               log ERROR (InsufficientFundsFor signal symbol e);;
               mret None
           | NetworkError _ =>
               log ERROR (NetworkErrorDuring signal symbol e);;
               mret None
           | ExchangeError _ =>
               log ERROR (ExchangeErrorDuring signal symbol e);;
               mret None
           | _ =>
               log ERROR (UnexpectedError signal symbol e);;
               mret None
           end)
  end.

(** The mock exchange of the module's self-test (its list of the orders
    it has accepted is the mock's own and left out). *)
Definition MockCCXTExchange : Exchange := {|
  create_market_buy_order symbol quantity :=
    if (String.eqb symbol "BTC/USDT" && negb (Qle_bool quantity 0))%bool then
      inr (Some ({[ "id" := FStr "mock_buy_123"; "symbol" := FStr symbol;
                    "type" := FStr "market"; "side" := FStr "buy";
                    "amount" := FNum quantity; "status" := FStr "closed" ]}
                 : OrderResult))
    else if String.eqb symbol "FAIL/USDT" then
      inl (ExchangeError "Mock exchange error for FAIL/USDT")
    else if String.eqb symbol "FUNDS/USDT" then
      inl (InsufficientFunds "Mock insufficient funds for FUNDS/USDT")
    else inr None;
  create_market_sell_order symbol quantity :=
    if (String.eqb symbol "ETH/USDT" && negb (Qle_bool quantity 0))%bool then
      inr (Some ({[ "id" := FStr "mock_sell_456"; "symbol" := FStr symbol;
                    "type" := FStr "market"; "side" := FStr "sell";
                    "amount" := FNum quantity; "status" := FStr "closed" ]}
                 : OrderResult))
    else inr None
|}.

Definition trading_engine : TradingEngine :=
  TradingEngine_init (Some {| exchange := Some MockCCXTExchange |})
                     (Some {[ "trade_params" := "{'test': True}" ]}).

Definition world0 : World := {| gateway_calls := []; log_records := [] |}.

(** The scenarios of the module's self-test. *)
Definition bullish_closes : list Cell := prices [20; 19; 18; 17; 16; 15; 18; 22; 23].
Definition bearish_closes : list Cell := prices [10; 11; 12; 13; 14; 15; 12; 10; 9].
Definition mavg_3_5 : MovingAverageCrossoverSignalGenerator :=
  {| short_window := 3; long_window := 5 |}.




(** [main.py], [handle_get_signal], lines 155-157: the number of candles
    the command asks the exchange for. *)
Definition data_limit (model : string) (long_window : Z) : Z :=
  let data_limit :=
    if String.eqb model "ma_crossover" then long_window * 2 else 50 in
  if (String.eqb model "ma_crossover" && (data_limit <? long_window + 1))%bool
  then long_window + 10
  else data_limit.

(** ** [generate_signal], as it runs *)

(** The log records of [generate_signal], by message and its arguments
    (lines 88, 91, 94, 97, 102, 105, 106, 108, 112, 121, 122, 126 and
    135). *)
Inductive SignalLogMessage : Type :=
  | NotADataFrame
  | NoneOrEmpty
  | CloseColumnMissing
  | NotEnoughData (long_window : Z) (data_length : nat)
  | CalculatingSMAs (data_length : nat) (short long : Z)
  | SMAShortTail (tail : list Cell)
  | SMALongTail (tail : list Cell)
  | ErrorCalculatingSMAs (e : Exn)
  | NotEnoughSMAValues (short long : Z) (data_length : nat)
  | ShortSMAs (current previous : Cell)
  | LongSMAs (current previous : Cell)
  | NaNInSMAs
  | SignalGenerated (signal : string) (short_sma long_sma : Cell).

(** [s.tail(n)] *)
Definition series_tail (n : nat) (s : list Cell) : list Cell :=
  drop (length s - n) s.

(** Lines 116-119: the four trailing averages, in the order
    (current short, previous short, current long, previous long). *)
Definition read_trailing (sma_short sma_long : list Cell)
  : Exn + (Cell * Cell * Cell * Cell) :=
  current_short_sma ← iloc_neg sma_short 1;
  previous_short_sma ← iloc_neg sma_short 2;
  current_long_sma ← iloc_neg sma_long 1;
  previous_long_sma ← iloc_neg sma_long 2;
  mret (current_short_sma, previous_short_sma,
        current_long_sma, previous_long_sma).

(** [generate_signal] with the records it logs, over the rolling means
    as they were computed: [rolling window column] is what
    [column.rolling(window=window).mean()] returned or raised. *)
Definition generate_signal_run (rolling : Z → list Cell → Exn + list Cell)
    (self : MovingAverageCrossoverSignalGenerator) (historical_data : PyValue)
  : list (LogLevel * SignalLogMessage) * (Exn + string) :=
  match historical_data with
  | PyDataFrame df =>
      if df_empty df then ([(WARNING, NoneOrEmpty)], inr HOLD)
      else match df_columns df !! "close" with
      | None => ([(WARNING, CloseColumnMissing)], inr HOLD)
      | Some close =>
          if Z.of_nat (df_index_len df) <? long_window self
          then ([(WARNING, NotEnoughData (long_window self) (df_index_len df))],
                inr HOLD)
          else
            let calculating :=
              (DEBUG, CalculatingSMAs (df_index_len df) (short_window self)
                                      (long_window self)) in
            match (sma_short ← rolling (short_window self) close;
                   sma_long ← rolling (long_window self) close;
                   mret (sma_short, sma_long)) with
            | inl e => ([calculating; (ERROR, ErrorCalculatingSMAs e)], inr HOLD)
            | inr (sma_short, sma_long) =>
                let computed :=
                  [calculating;
                   (DEBUG, SMAShortTail (series_tail 3 sma_short));
                   (DEBUG, SMALongTail (series_tail 3 sma_long))] in
                if nan_guard sma_short sma_long
                then (computed
                      ++ [(WARNING, NotEnoughSMAValues (short_window self)
                                      (long_window self) (df_index_len df))],
                      inr HOLD)
                else
                  match read_trailing sma_short sma_long with
                  | inl e => (computed, inl e)
                  | inr (current_short_sma, previous_short_sma,
                         current_long_sma, previous_long_sma) =>
                      let read :=
                        computed
                        ++ [(DEBUG, ShortSMAs current_short_sma previous_short_sma);
                            (DEBUG, LongSMAs current_long_sma previous_long_sma)] in
                      if (isna current_short_sma || isna previous_short_sma
                          || isna current_long_sma || isna previous_long_sma)%bool
                      then (read ++ [(WARNING, NaNInSMAs)], inr HOLD)
                      else
                        let signal :=
                          crossover current_short_sma previous_short_sma
                                    current_long_sma previous_long_sma in
                        (read ++ [(INFO, SignalGenerated signal current_short_sma
                                           current_long_sma)],
                         inr signal)
                  end
            end
      end
  | _ => ([(WARNING, NotADataFrame)], inr HOLD)
  end.

(** ** [DataFetcher] *)

From Stdlib Require Import Ascii.

(** A [str] is a sequence of characters.  [str.isalnum] is spelt out for
    the ASCII characters; for a character outside ASCII it is what
    Unicode's character table says, which the development takes as given
    ([unicode_isalnum]). *)
Fixpoint str_map (f : Ascii.ascii → Ascii.ascii) (s : string) : string :=
  match s with
  | EmptyString => EmptyString
  | String c s' => String (f c) (str_map f s')
  end.

Definition isalnum (unicode_isalnum : Ascii.ascii → bool) (c : Ascii.ascii) : bool :=
  let n := Ascii.N_of_ascii c in
  if (n <? 128)%N
  then ((48 <=? n) && (n <=? 57) || (65 <=? n) && (n <=? 90)
        || (97 <=? n) && (n <=? 122))%N%bool
  else unicode_isalnum c.

(** [DataFetcher._make_safe_filename] *)
Definition _make_safe_filename (unicode_isalnum : Ascii.ascii → bool)
    (symbol : string) : string :=
  str_map (λ c, if isalnum unicode_isalnum c then c else "_"%char) symbol.

(** [os.path.join(a, b)] of [posixpath] *)
Definition endswith_sep (path : string) : bool :=
  match String.get (String.length path - 1) path with
  | Some c => Ascii.eqb c "/"
  | None => false
  end.

Definition os_path_join (a b : string) : string :=
  if String.prefix "/" b then b
  else if (String.eqb a "" || endswith_sep a)%bool then a +:+ b
  else a +:+ "/" +:+ b.

(** Line 86: [f"{exchange_id}_{safe_symbol}_{timeframe}.csv"] *)
Definition csv_filename (unicode_isalnum : Ascii.ascii → bool)
    (exchange_id symbol timeframe : string) : string :=
  exchange_id +:+ "_" +:+ _make_safe_filename unicode_isalnum symbol
  +:+ "_" +:+ timeframe +:+ ".csv".

(** One candle as ccxt returns it:
    [[timestamp, open, high, low, close, volume]]. *)
Record Candle : Type := {
  candle_timestamp : Cell;
  candle_open : Cell;
  candle_high : Cell;
  candle_low : Cell;
  candle_close : Cell;
  candle_volume : Cell
}.

(** The ccxt exchange object as the data fetcher uses it: its [id] and
    [fetch_ohlcv(symbol, timeframe, since, limit)], which returns a list
    of candles (or [None]) or raises. *)
Record OhlcvExchange : Type := {
  ccxt_id : string;
  fetch_ohlcv : string → string → option Z → Z → Exn + option (list Candle)
}.

Record OhlcvExchangeHandler : Type := {
  ohlcv_exchange : option OhlcvExchange
}.

Record DataFetcher : Type := {
  fetcher_exchange_handler : option OhlcvExchangeHandler
}.

(** What a call into the file system raises: an [OSError] ([IOError] is
    its alias), or something else. *)
Inductive FsExn : Type :=
  | OSError (msg : string)
  | NotOSError (e : Exn).

(** The file system, by what it answers: [os.makedirs(dir, exist_ok=True)]
    and [df.to_csv(filepath, index=False)] succeed ([None]) or raise. *)
Record FileSystem : Type := {
  makedirs : string → option FsExn;
  to_csv : string → DataFrame → option FsExn
}.

(** What [fetch_historical_ohlcv] does to the world, in order. *)
Inductive FetcherEvent : Type :=
  | FetchOhlcv (symbol timeframe : string) (since : option Z) (limit : Z)
  | Makedirs (output_dir : string)
  | ToCsv (filepath : string) (df : DataFrame).

(** [pd.DataFrame()] *)
Definition empty_frame : DataFrame :=
  {| df_index_len := 0; df_columns := ∅ |}.

(** [pd.DataFrame(ohlcv, columns=['timestamp', 'open', 'high', 'low',
    'close', 'volume'])] *)
Definition ohlcv_frame (ohlcv : list Candle) : DataFrame :=
  {| df_index_len := length ohlcv;
     df_columns :=
       {[ "timestamp" := candle_timestamp <$> ohlcv;
          "open" := candle_open <$> ohlcv;
          "high" := candle_high <$> ohlcv;
          "low" := candle_low <$> ohlcv;
          "close" := candle_close <$> ohlcv;
          "volume" := candle_volume <$> ohlcv ]} |}.

(** [df[label] = values] *)
Definition df_set_column (df : DataFrame) (label : string)
    (values : list Cell) : DataFrame :=
  {| df_index_len := df_index_len df;
     df_columns := <[label := values]> (df_columns df) |}.

(** [fetch_historical_ohlcv].  [to_datetime] is pandas'
    [pd.to_datetime(_, unit='ms')] on a column, taken as given: it
    returns the converted column or raises.  The result is the list of
    what was done and what the call returns or raises; the [logger]
    calls are left out. *)
Definition fetch_historical_ohlcv (unicode_isalnum : Ascii.ascii → bool)
    (to_datetime : list Cell → Exn + list Cell) (fs : FileSystem)
    (self : DataFetcher) (symbol timeframe : string) (since : option Z)
    (limit : Z) (output_dir : option string)
  : list FetcherEvent * (Exn + option DataFrame) :=
  match fetcher_exchange_handler self ≫= ohlcv_exchange with
  | None => ([], inr None)
  | Some ex =>
      let fetched := [FetchOhlcv symbol timeframe since limit] in
      match fetch_ohlcv ex symbol timeframe since limit with
      | inl _ => (fetched, inr None)
      | inr None | inr (Some []) => (fetched, inr (Some empty_frame))
      | inr (Some ohlcv) =>
          let df := ohlcv_frame ohlcv in
          if df_empty df then (fetched, inr (Some df))
          else
            match to_datetime (candle_timestamp <$> ohlcv) with
            | inl e => (fetched, inl e)
            | inr timestamp =>
                let df := df_set_column df "timestamp" timestamp in
                match output_dir with
                | None => (fetched, inr (Some df))
                | Some output_dir =>
                    match makedirs fs output_dir with
                    | Some (OSError _) =>
                        (fetched ++ [Makedirs output_dir], inr None)
                    | Some (NotOSError e) =>
                        (fetched ++ [Makedirs output_dir], inl e)
                    | None =>
                        let filename :=
                          csv_filename unicode_isalnum (ccxt_id ex) symbol
                                       timeframe in
                        let filepath := os_path_join output_dir filename in
                        let done :=
                          fetched ++ [Makedirs output_dir; ToCsv filepath df] in
                        match to_csv fs filepath df with
                        | Some (OSError _) => (done, inr None)
                        | Some (NotOSError e) => (done, inl e)
                        | None => (done, inr (Some df))
                        end
                    end
                end
            end
      end
  end.

(** The value the caller of [fetch_historical_ohlcv] holds. *)
Definition fetched_value (r : option DataFrame) : PyValue :=
  match r with
  | None => PyNone
  | Some df => PyDataFrame df
  end.

(** The mock exchange of [tests/mocks.py] and a file system on which
    every call succeeds. *)
Definition mock_candle : Candle :=
  {| candle_timestamp := Some 1672531200000%Q; candle_open := Some 16000%Q;
     candle_high := Some 16100%Q; candle_low := Some 15900%Q;
     candle_close := Some 16050%Q; candle_volume := Some 100%Q |}.

Definition MockOhlcvExchange : OhlcvExchange :=
  {| ccxt_id := "mock_exchange";
     fetch_ohlcv _ _ _ _ := inr (Some [mock_candle]) |}.

Definition data_fetcher : DataFetcher :=
  {| fetcher_exchange_handler :=
       Some {| ohlcv_exchange := Some MockOhlcvExchange |} |}.

Definition fs_ok : FileSystem :=
  {| makedirs _ := None; to_csv _ _ := None |}.

Definition ascii_only : Ascii.ascii → bool := λ _, false.

(** ** [config_manager.load_config] *)

(** [str.lower], [str.isspace] and [str.strip()].  On the ASCII
    characters they are spelt out; whether a character outside ASCII is
    white space is Unicode's to say ([unicode_isspace]), and [lower]
    leaves such a character alone (no such character becomes part of one
    of the words [getboolean] knows). *)
Definition chr_lower (c : ascii) : ascii :=
  let n := N_of_ascii c in
  if ((65 <=? n) && (n <=? 90))%N%bool then ascii_of_N (n + 32) else c.

Definition str_lower (s : string) : string := str_map chr_lower s.

Definition isspace (unicode_isspace : ascii → bool) (c : ascii) : bool :=
  let n := N_of_ascii c in
  if (n <? 128)%N
  then ((9 <=? n) && (n <=? 13) || (28 <=? n) && (n <=? 32))%N%bool
  else unicode_isspace c.

Fixpoint str_lstrip (unicode_isspace : ascii → bool) (s : string) : string :=
  match s with
  | EmptyString => EmptyString
  | String c s' =>
      if isspace unicode_isspace c then str_lstrip unicode_isspace s' else s
  end.

Fixpoint str_rstrip (unicode_isspace : ascii → bool) (s : string) : string :=
  match s with
  | EmptyString => EmptyString
  | String c s' =>
      match str_rstrip unicode_isspace s' with
      | EmptyString =>
          if isspace unicode_isspace c then EmptyString
          else String c EmptyString
      | rest => String c rest
      end
  end.

Definition str_strip (unicode_isspace : ascii → bool) (s : string) : string :=
  str_lstrip unicode_isspace (str_rstrip unicode_isspace s).

(** What [configparser] raises: the two errors that [get]'s [fallback]
    absorbs, another [configparser.Error], or an exception of another
    class. *)
Inductive ConfigExn : Type :=
  | NoSectionError (section : string)
  | NoOptionError (option section : string)
  | ConfigparserError (msg : string)
  | NotConfigparserError (e : Exn).

#[global] Instance config_exn_ret : MRet (sum ConfigExn) := λ A, inr.
#[global] Instance config_exn_bind : MBind (sum ConfigExn) :=
  λ A B f m, match m with inl e => inl e | inr a => f a end.

(** A [ConfigParser] after [read], by what it answers:
    [section in config] and [config.get(section, option)]. *)
Record ConfigParser : Type := {
  has_section : string → bool;
  get : string → string → ConfigExn + string
}.

(** [config.get(section, option, fallback=fallback)] *)
Definition get_fallback (config : ConfigParser) (section option fallback : string)
  : ConfigExn + string :=
  match get config section option with
  | inl (NoSectionError _) | inl (NoOptionError _ _) => inr fallback
  | answer => answer
  end.

(** [config.getboolean(section, option)], with [BOOLEAN_STATES]. *)
Definition getboolean (config : ConfigParser) (section option : string)
  : ConfigExn + bool :=
  value ← get config section option;
  let lowered := str_lower value in
  if bool_decide (lowered ∈ ["1"; "yes"; "true"; "on"]) then mret true
  else if bool_decide (lowered ∈ ["0"; "no"; "false"; "off"]) then mret false
  else inl (NotConfigparserError (ValueError ("Not a boolean: " +:+ value))).

(** The files: [os.path.exists(path)], and [ConfigParser().read(path)],
    which gives the parser or raises. *)
Record ConfigFiles : Type := {
  path_exists : string → bool;
  read : string → ConfigExn + ConfigParser
}.

(** A value of the dict [load_config] returns. *)
Inductive ConfigValue : Type :=
  | CStr (s : string)
  | CBool (b : bool).

(** Lines 65-80: the optional [GENERAL] section. *)
Definition load_general (unicode_isspace : ascii → bool) (config : ConfigParser)
    (config_values : gmap string ConfigValue) : gmap string ConfigValue :=
  let on_error (e : ConfigExn) (config_values : gmap string ConfigValue) :=
    match e with
    | NoSectionError _ => config_values
    | _ => <["LOG_FILE" := CStr "logs/app.log"]>
             (<["LOG_LEVEL" := CStr "INFO"]> config_values)
    end in
  match get_fallback config "GENERAL" "LOG_LEVEL" "INFO" with
  | inl e => on_error e config_values
  | inr value =>
      let log_level_from_config := str_strip unicode_isspace value in
      let config_values :=
        if String.eqb log_level_from_config "" then config_values
        else <["LOG_LEVEL" := CStr log_level_from_config]> config_values in
      match get_fallback config "GENERAL" "LOG_FILE" "logs/app.log" with
      | inl e => on_error e config_values
      | inr value =>
          let log_file_from_config := str_strip unicode_isspace value in
          if String.eqb log_file_from_config "" then config_values
          else <["LOG_FILE" := CStr log_file_from_config]> config_values
      end
  end.

(** [load_config] *)
Definition load_config (unicode_isspace : ascii → bool) (files : ConfigFiles)
    (config_path : string) : Exn + option (gmap string ConfigValue) :=
  if negb (path_exists files config_path) then inr None
  else
    match read files config_path with
    | inl (NotConfigparserError e) => inl e
    | inl _ => inr None
    | inr config =>
        if negb (has_section config "EXCHANGE") then inr None
        else
          match (api_key ← get config "EXCHANGE" "API_KEY";
                 api_secret ← get config "EXCHANGE" "API_SECRET";
                 default_exchange_id ← get config "EXCHANGE" "DEFAULT_EXCHANGE_ID";
                 use_testnet ← getboolean config "EXCHANGE" "USE_TESTNET";
                 mret (api_key, api_secret, default_exchange_id, use_testnet)) with
          | inl _ => inr None
          | inr (api_key, api_secret, default_exchange_id, use_testnet) =>
              let config_values : gmap string ConfigValue :=
                <["use_testnet" := CBool use_testnet]>
                  (<["default_exchange_id" := CStr default_exchange_id]>
                     (<["api_secret" := CStr api_secret]>
                        (<["api_key" := CStr api_key]> ∅))) in
              if String.eqb api_key "" then inr None
              else if String.eqb api_secret "" then inr None
              else if String.eqb default_exchange_id "" then inr None
              else
                let config_values :=
                  <["LOG_FILE" := CStr "logs/app.log"]>
                    (<["LOG_LEVEL" := CStr "INFO"]> config_values) in
                if has_section config "GENERAL"
                then inr (Some (load_general unicode_isspace config config_values))
                else inr (Some config_values)
          end
    end.

(** [main.py], lines 22-32: the log settings the module computes when it
    is imported.  Both calls of [load_config] read the same path; a
    [None] has no [get], which is an [AttributeError]. *)
Definition CONFIG_FILE_PATH : string := "config/config.ini".

Definition dict_get (d : gmap string ConfigValue) (key : string)
    (default : ConfigValue) : ConfigValue :=
  match d !! key with
  | Some v => v
  | None => default
  end.

Definition startup_log_settings (unicode_isspace : ascii → bool)
    (files : ConfigFiles) : Exn + (ConfigValue * ConfigValue) :=
  loaded_config ← load_config unicode_isspace files CONFIG_FILE_PATH;
  loaded_config ←
    match loaded_config with
    | Some d => if decide (d = ∅) then
                  load_config unicode_isspace files "config/config.ini"
                else mret (Some d)
    | None => load_config unicode_isspace files "config/config.ini"
    end;
  match loaded_config with
  | None =>
      inl (OtherException
             "AttributeError: 'NoneType' object has no attribute 'get'")
  | Some d =>
      mret (dict_get d "LOG_LEVEL" (CStr "INFO"),
            dict_get d "LOG_FILE" (CStr "logs/app.log"))
  end.

(** The parser of the file that [tests/test_config_manager.py] loads with
    success, and of the one without the [GENERAL] section. *)
Definition test_parser (general : bool) : ConfigParser :=
  {| has_section section :=
       (String.eqb section "EXCHANGE"
        || (general && String.eqb section "GENERAL"))%bool;
     get section option :=
       if String.eqb section "EXCHANGE" then
         if String.eqb (str_lower option) "api_key" then inr "TEST_KEY"
         else if String.eqb (str_lower option) "api_secret" then inr "TEST_SECRET"
         else if String.eqb (str_lower option) "default_exchange_id"
              then inr "test_exchange"
         else if String.eqb (str_lower option) "use_testnet" then inr "True"
         else inl (NoOptionError (str_lower option) section)
       else if (general && String.eqb section "GENERAL")%bool then
         if String.eqb (str_lower option) "log_level" then inr "DEBUG"
         else if String.eqb (str_lower option) "log_file" then inr "logs/test.log"
         else inl (NoOptionError (str_lower option) section)
       else inl (NoSectionError section) |}.

Definition test_files (general : bool) : ConfigFiles :=
  {| path_exists path := String.eqb path "config/config.ini";
     read _ := inr (test_parser general) |}.

(** The log setting the [GENERAL] section gives for an option: its
    stripped value where there is one that is not blank, the default
    otherwise. *)
Definition log_setting (unicode_isspace : ascii → bool) (config : ConfigParser)
    (option default : string) : string :=
  match get_fallback config "GENERAL" option default with
  | inr value =>
      if String.eqb (str_strip unicode_isspace value) "" then default
      else str_strip unicode_isspace value
  | inl _ => default
  end.

(** What [load_config] needs of the [EXCHANGE] section: its four options
    can be read and the three strings are not empty. *)
Definition exchange_options (config : ConfigParser)
    (api_key api_secret default_exchange_id : string) (use_testnet : bool) : Prop :=
  get config "EXCHANGE" "API_KEY" = inr api_key
  ∧ get config "EXCHANGE" "API_SECRET" = inr api_secret
  ∧ get config "EXCHANGE" "DEFAULT_EXCHANGE_ID" = inr default_exchange_id
  ∧ getboolean config "EXCHANGE" "USE_TESTNET" = inr use_testnet
  ∧ api_key ≠ "" ∧ api_secret ≠ "" ∧ default_exchange_id ≠ "".

(** The dict [load_config] builds. *)
Definition config_dict (api_key api_secret default_exchange_id : string)
    (use_testnet : bool) (log_level log_file : string) : gmap string ConfigValue :=
  <["LOG_FILE" := CStr log_file]>
    (<["LOG_LEVEL" := CStr log_level]>
       (<["use_testnet" := CBool use_testnet]>
          (<["default_exchange_id" := CStr default_exchange_id]>
             (<["api_secret" := CStr api_secret]>
                (<["api_key" := CStr api_key]> ∅))))).

(** * Properties *)

(** ** Series *)

Section series.
Implicit Types (s xs : list Cell) (c : Cell) (i k : nat).

Lemma isna_sum_app s1 s2 : isna_sum (s1 ++ s2) = (isna_sum s1 + isna_sum s2)%nat.
Proof. unfold isna_sum. by rewrite filter_app, length_app. Qed.

Lemma isna_sum_le_length s : (isna_sum s ≤ length s)%nat.
Proof. apply length_filter. Qed.

Lemma isna_sum_cons_defined q s : isna_sum (Some q :: s) = isna_sum s.
Proof. unfold isna_sum. rewrite filter_cons_False; [done | simpl; congruence]. Qed.

Lemma iloc_neg_inr s k c :
  iloc_neg s k = inr c ↔ (k ≤ length s)%nat ∧ s !! (length s - k)%nat = Some c.
Proof.
  unfold iloc_neg. destruct (Nat.leb_spec k (length s)) as [Hk|Hk].
  - destruct (s !! _) as [c'|]; split.
    + by intros [= ->].
    + by intros [_ [= ->]].
    + done.
    + by intros [_ ?].
  - split; [done | lia].
Qed.

(** Within range, [iloc] returns. *)
Lemma iloc_neg_in_range s k :
  (1 ≤ k ≤ length s)%nat → ∃ c, iloc_neg s k = inr c.
Proof.
  intros Hk. destruct (lookup_lt_is_Some_2 s (length s - k)%nat) as [c Hc]; [lia|].
  exists c. apply iloc_neg_inr. split; [lia | done].
Qed.

(** Two defined trailing values leave at most [len - 2] NaNs. *)
Lemma isna_sum_two_defined s a b :
  iloc_neg s 1 = inr (Some a) → iloc_neg s 2 = inr (Some b) →
  (isna_sum s + 2 ≤ length s)%nat.
Proof.
  intros [H1 Ha]%iloc_neg_inr [H2 Hb]%iloc_neg_inr.
  rewrite <- (take_drop_middle s _ _ Hb) at 1.
  replace (S (length s - 2)) with (length s - 1)%nat by lia.
  rewrite (drop_S s _ _ Ha).
  rewrite isna_sum_app, !isna_sum_cons_defined.
  pose proof (isna_sum_le_length (take (length s - 2) s)) as Ht.
  pose proof (isna_sum_le_length (drop (S (length s - 1)) s)) as Hd.
  rewrite length_take in Ht. rewrite length_drop in Hd. lia.
Qed.

Lemma rolling_mean_inr w xs s :
  rolling_mean w xs = inr s →
  0 ≤ w ∧ s = map (λ i, window_mean (Z.to_nat w) (window_at (Z.to_nat w) xs i))
                  (seq 0 (length xs)).
Proof.
  unfold rolling_mean. destruct (Z.ltb_spec w 0); [done|].
  intros [= <-]. split; [lia | done].
Qed.

Lemma rolling_mean_length w xs s :
  rolling_mean w xs = inr s → length s = length xs.
Proof.
  intros [_ ->]%rolling_mean_inr. by rewrite length_map, length_seq.
Qed.

Lemma rolling_mean_lookup w xs s i :
  rolling_mean w xs = inr s → (i < length xs)%nat →
  s !! i = Some (window_mean (Z.to_nat w) (window_at (Z.to_nat w) xs i)).
Proof.
  intros [_ ->]%rolling_mean_inr Hi.
  rewrite list_lookup_fmap, lookup_seq_lt; done.
Qed.

Lemma window_at_length w xs i :
  (length (window_at w xs i) ≤ S i)%nat.
Proof. unfold window_at. rewrite length_drop, length_take. lia. Qed.

Lemma omap_id_length (win : list Cell) : (length (omap id win) ≤ length win)%nat.
Proof. induction win as [|[q|] win IH]; csimpl; lia. Qed.

(** A defined mean had a full window. *)
Lemma window_mean_defined minp win q :
  window_mean minp win = Some q → (minp ≤ length win)%nat ∧ (1 ≤ length win)%nat.
Proof.
  unfold window_mean. cbv zeta. pose proof (omap_id_length win) as Hobs.
  destruct (Nat.leb_spec minp (length (omap id win))) as [Hmin|];
    destruct (Nat.ltb_spec 0 (length (omap id win))) as [Hpos|]; simpl; try done.
  intros _. split; lia.
Qed.

(** A defined average needs as many rows as its window. *)
Lemma rolling_mean_defined w xs s i q :
  rolling_mean w xs = inr s → s !! i = Some (Some q) →
  w ≤ Z.of_nat (length xs).
Proof.
  intros Hs Hi. pose proof (rolling_mean_length _ _ _ Hs) as Hlen.
  assert (Hlt : (i < length xs)%nat)
    by (rewrite <- Hlen; exact (lookup_lt_Some _ _ _ Hi)).
  rewrite (rolling_mean_lookup _ _ _ _ Hs Hlt) in Hi. injection Hi as Hi.
  apply window_mean_defined in Hi as [Hw _].
  pose proof (window_at_length (Z.to_nat w) xs i).
  apply rolling_mean_inr in Hs as [Hw0 _]. lia.
Qed.
End series.

(** ** The crossover rule *)

Section crossover_rule.
Implicit Types cs ps cl pl : Q.

Lemma float_le_spec (a b : Q) : float_le (Some a) (Some b) = true ↔ (a <= b)%Q.
Proof. apply Qle_bool_iff. Qed.

Lemma float_lt_spec (a b : Q) : float_lt (Some a) (Some b) = true ↔ (a < b)%Q.
Proof.
  simpl. rewrite negb_true_iff, <- not_true_iff_false, Qle_bool_iff.
  split; [apply Qnot_le_lt | apply Qlt_not_le].
Qed.

Lemma crossover_BUY cs ps cl pl :
  crossover (Some cs) (Some ps) (Some cl) (Some pl) = BUY
  ↔ (cs > cl ∧ ps <= pl)%Q.
Proof.
  unfold crossover, float_gt, float_ge.
  rewrite <- float_lt_spec, <- float_le_spec.
  destruct (float_lt (Some cl) (Some cs)), (float_le (Some ps) (Some pl)),
    (float_lt (Some cs) (Some cl)), (float_le (Some pl) (Some ps));
    simpl; split; (done || by intros []).
Qed.

Lemma crossover_SELL cs ps cl pl :
  crossover (Some cs) (Some ps) (Some cl) (Some pl) = SELL
  ↔ (cs < cl ∧ ps >= pl)%Q.
Proof.
  pose proof (crossover_BUY cs ps cl pl) as HB.
  unfold crossover, float_gt, float_ge in *.
  rewrite <- (float_lt_spec cs cl), <- (float_le_spec pl ps).
  destruct (float_lt (Some cl) (Some cs) && float_le (Some ps) (Some pl)) eqn:Hb.
  - destruct HB as [HB _]. destruct (HB eq_refl) as [Hgt _].
    split; [done|]. intros [Hlt%float_lt_spec _]. lra.
  - destruct (float_lt (Some cs) (Some cl)), (float_le (Some pl) (Some ps));
      simpl; split; (done || by intros []).
Qed.

Lemma crossover_HOLD cs ps cl pl :
  ¬ (cs > cl ∧ ps <= pl)%Q → ¬ (cs < cl ∧ ps >= pl)%Q →
  crossover (Some cs) (Some ps) (Some cl) (Some pl) = HOLD.
Proof.
  rewrite <- crossover_BUY, <- crossover_SELL. unfold crossover.
  repeat case_match; done.
Qed.
End crossover_rule.

(** ** [generate_signal] *)

Section generate_signal.
Implicit Types (g : MovingAverageCrossoverSignalGenerator) (df : DataFrame).

Lemma wf_close_length df close :
  df_wf df → df_columns df !! "close" = Some close →
  length close = df_index_len df.
Proof. intros Hwf Hc. exact (Hwf _ _ Hc). Qed.

Lemma close_frame_wf closes : df_wf (close_frame closes).
Proof.
  unfold df_wf, close_frame. simpl. by apply map_Forall_singleton.
Qed.

Lemma close_frame_lookup closes :
  df_columns (close_frame closes) !! "close" = Some closes.
Proof. unfold close_frame. simpl. apply lookup_singleton_eq. Qed.

Lemma df_not_empty df close :
  df_columns df !! "close" = Some close → (0 < df_index_len df)%nat →
  df_empty df = false.
Proof.
  intros Hc Hlen. unfold df_empty.
  apply orb_false_iff. split; apply Nat.eqb_neq; [lia|].
  intros Hz%map_size_empty_iff. rewrite Hz in Hc. by rewrite lookup_empty in Hc.
Qed.

(** Past the input checks, the NaN guard is what decides first. *)
Lemma generate_signal_frame g df close sma_short sma_long :
  df_empty df = false →
  df_columns df !! "close" = Some close →
  long_window g ≤ Z.of_nat (df_index_len df) →
  rolling_mean (short_window g) close = inr sma_short →
  rolling_mean (long_window g) close = inr sma_long →
  generate_signal g (PyDataFrame df)
  = if nan_guard sma_short sma_long then inr HOLD
    else read_and_decide sma_short sma_long.
Proof.
  intros He Hc Hlen Hs Hl. unfold generate_signal.
  rewrite He, Hc. destruct (Z.ltb_spec (Z.of_nat (df_index_len df)) (long_window g)); [lia|].
  rewrite Hs, Hl. simpl. done.
Qed.

Lemma nan_guard_false sma_short sma_long :
  nan_guard sma_short sma_long = false ↔
  (isna_sum sma_short + 2 ≤ length sma_short)%nat
  ∧ (isna_sum sma_long + 2 ≤ length sma_long)%nat.
Proof.
  unfold nan_guard. rewrite orb_false_iff, !Z.geb_leb, !Z.leb_gt. lia.
Qed.

(** Past the guard all four reads are in range. *)
Lemma read_and_decide_returns sma_short sma_long :
  nan_guard sma_short sma_long = false →
  ∃ signal, read_and_decide sma_short sma_long = inr signal.
Proof.
  intros [Hs Hl]%nan_guard_false. unfold read_and_decide.
  destruct (iloc_neg_in_range sma_short 1) as [cs ->]; [lia|].
  destruct (iloc_neg_in_range sma_short 2) as [ps ->]; [lia|].
  destruct (iloc_neg_in_range sma_long 1) as [cl ->]; [lia|].
  destruct (iloc_neg_in_range sma_long 2) as [pl ->]; [lia|].
  simpl. case_match; eauto.
Qed.

(** [generate_signal] never raises. *)
Lemma generate_signal_returns g v : ∃ signal, generate_signal g v = inr signal.
Proof.
  destruct v as [| | |df]; simpl; eauto.
  destruct (df_empty df); eauto.
  destruct (df_columns df !! "close") as [close|]; eauto.
  case_match; eauto.
  destruct (rolling_mean (short_window g) close) as [|sma_short]; simpl; eauto.
  destruct (rolling_mean (long_window g) close) as [|sma_long]; simpl; eauto.
  destruct (nan_guard sma_short sma_long) eqn:Hg; eauto.
  by apply read_and_decide_returns.
Qed.

(** With the four trailing averages defined, the decision is
    [crossover]'s. *)
Lemma generate_signal_defined g df close sma_short sma_long cs ps cl pl :
  df_wf df →
  df_columns df !! "close" = Some close →
  rolling_mean (short_window g) close = inr sma_short →
  rolling_mean (long_window g) close = inr sma_long →
  iloc_neg sma_short 1 = inr (Some cs) →
  iloc_neg sma_short 2 = inr (Some ps) →
  iloc_neg sma_long 1 = inr (Some cl) →
  iloc_neg sma_long 2 = inr (Some pl) →
  generate_signal g (PyDataFrame df)
  = inr (crossover (Some cs) (Some ps) (Some cl) (Some pl)).
Proof.
  intros Hwf Hc Hs Hl Hcs Hps Hcl Hpl.
  pose proof (wf_close_length _ _ Hwf Hc) as Hlen.
  pose proof (rolling_mean_length _ _ _ Hs) as Hls.
  pose proof (isna_sum_two_defined _ _ _ Hcs Hps) as Hns.
  pose proof (isna_sum_two_defined _ _ _ Hcl Hpl) as Hnl.
  assert (long_window g ≤ Z.of_nat (length close)) as Hlong.
  { apply iloc_neg_inr in Hcl as [_ Hcl]. eapply rolling_mean_defined; eauto. }
  rewrite (generate_signal_frame g df close sma_short sma_long); try done.
  - rewrite (proj2 (nan_guard_false _ _)) by done.
    unfold read_and_decide. rewrite Hcs, Hps, Hcl, Hpl. done.
  - eapply df_not_empty; [done | lia].
  - lia.
Qed.
End generate_signal.

(** ** How much history a verdict needs *)

Section history.
Implicit Types (g : MovingAverageCrossoverSignalGenerator) (df : DataFrame).

Lemma isna_sum_all_nan (s : list Cell) :
  Forall (λ c, c = None) s → isna_sum s = length s.
Proof.
  induction 1 as [|c s -> _ IH]; [done|].
  unfold isna_sum in *. rewrite filter_cons_True by done. simpl. by rewrite IH.
Qed.

Lemma window_mean_short minp (win : list Cell) :
  (length win < minp)%nat → window_mean minp win = None.
Proof.
  intros Hlt. destruct (window_mean minp win) as [q|] eqn:Hq; [|done].
  apply window_mean_defined in Hq. lia.
Qed.

(** The first [window - 1] averages are NaN. *)
Lemma isna_sum_rolling_mean w xs s m :
  rolling_mean w xs = inr s →
  (m ≤ length xs)%nat → Z.of_nat m < w →
  (m ≤ isna_sum s)%nat.
Proof.
  intros [Hw ->]%rolling_mean_inr Hm Hmw.
  replace (length xs) with (m + (length xs - m))%nat by lia.
  rewrite seq_app, map_app, isna_sum_app, isna_sum_all_nan.
  - rewrite length_map, length_seq. lia.
  - apply Forall_fmap, Forall_seq. intros i Hi. simpl.
    apply window_mean_short. pose proof (window_at_length (Z.to_nat w) xs i). lia.
Qed.

(** With no more rows than the long window, the verdict is HOLD. *)
Lemma short_history_hold g df :
  df_wf df → Z.of_nat (df_index_len df) ≤ long_window g →
  generate_signal g (PyDataFrame df) = inr HOLD.
Proof.
  intros Hwf Hlen. unfold generate_signal.
  destruct (df_empty df); [done|].
  destruct (df_columns df !! "close") as [close|] eqn:Hc; [|done].
  apply (wf_close_length _ _ Hwf) in Hc.
  case_match; [done|].
  destruct (rolling_mean (short_window g) close) as [|sma_short]; [done|].
  destruct (rolling_mean (long_window g) close) as [|sma_long] eqn:Hl; [done|].
  simpl.
  destruct (nan_guard sma_short sma_long) eqn:Hg; [done|].
  apply nan_guard_false in Hg as [_ Hg].
  pose proof (rolling_mean_length _ _ _ Hl) as Hll.
  assert (0 < length close)%nat by lia.
  pose proof (isna_sum_rolling_mean _ _ _ (length close - 1) Hl). lia.
Qed.

Lemma Qsum_zeros n : (Qsum (replicate n 0) == 0)%Q.
Proof. induction n as [|n IH]; simpl; [done|]. rewrite IH. lra. Qed.

Lemma Qsum_app (l1 l2 : list Q) : (Qsum (l1 ++ l2) == Qsum l1 + Qsum l2)%Q.
Proof. induction l1 as [|q l1 IH]; simpl; [lra|]. rewrite IH. lra. Qed.

Lemma omap_id_Some (qs : list Q) : omap id (Some <$> qs) = qs.
Proof. induction qs as [|q qs IH]; csimpl; [done|]. by rewrite IH. Qed.

(** The mean of a full window without NaN. *)
Lemma window_mean_full w (qs : list Q) i :
  (1 ≤ w ≤ S i)%nat → (i < length qs)%nat →
  window_mean w (window_at w (Some <$> qs) i)
  = Some (Qsum (drop (S i - w) (take (S i) qs)) / inject_Z (Z.of_nat w))%Q.
Proof.
  intros Hw Hi. unfold window_at, window_mean.
  rewrite <- fmap_take, <- fmap_drop, omap_id_Some.
  rewrite length_drop, length_take.
  replace (S i `min` length qs - (S i - w))%nat with w by lia.
  rewrite Nat.leb_refl. destruct (Nat.ltb_spec 0 w); [done | lia].
Qed.

(** The [k]-th average from the end, over a column without NaN. *)
Lemma rolling_mean_iloc (w k : nat) (qs : list Q) s :
  rolling_mean (Z.of_nat w) (Some <$> qs) = inr s →
  (1 ≤ w)%nat → (1 ≤ k)%nat → (w + k ≤ length qs + 1)%nat →
  iloc_neg s k
  = inr (Some (Qsum (drop (length qs + 1 - k - w) (take (length qs + 1 - k) qs))
               / inject_Z (Z.of_nat w))%Q).
Proof.
  intros Hs Hw Hk Hlen. apply iloc_neg_inr.
  pose proof (rolling_mean_length _ _ _ Hs) as Hl. rewrite length_fmap in Hl.
  split; [lia|].
  rewrite (rolling_mean_lookup _ _ _ _ Hs) by (rewrite length_fmap; lia).
  rewrite Nat2Z.id, window_mean_full by lia.
  rewrite Hl. by replace (S (length qs - k)) with (length qs + 1 - k)%nat by lia.
Qed.

Lemma inverse_lt (a b : nat) :
  (1 ≤ a < b)%nat →
  (1 / inject_Z (Z.of_nat b) < 1 / inject_Z (Z.of_nat a))%Q.
Proof.
  intros Hab. unfold Qlt, Qdiv, Qmult, Qinv, inject_Z. simpl.
  destruct (Z.of_nat a) as [|pa|pa] eqn:Ha; try lia.
  destruct (Z.of_nat b) as [|pb|pb] eqn:Hb; try lia.
  simpl. lia.
Qed.

(** [long_window] flat closes and a rise: the rise is a bullish
    crossover. *)
Lemma rise_is_BUY (sw lw : nat) :
  (1 ≤ sw < lw)%nat →
  generate_signal {| short_window := Z.of_nat sw; long_window := Z.of_nat lw |}
    (PyDataFrame (close_frame (Some <$> (replicate lw 0%Q ++ [1%Q]))))
  = inr BUY.
Proof.
  intros Hw.
  set (qs := replicate lw 0%Q ++ [1%Q]).
  assert (length qs = S lw) as Hlen
    by (unfold qs; rewrite length_app, length_replicate; simpl; lia).
  destruct (rolling_mean (Z.of_nat sw) (Some <$> qs)) as [|ss] eqn:Hs.
  { unfold rolling_mean in Hs. destruct (Z.ltb_spec (Z.of_nat sw) 0); [lia | done]. }
  destruct (rolling_mean (Z.of_nat lw) (Some <$> qs)) as [|sl] eqn:Hl.
  { unfold rolling_mean in Hl. destruct (Z.ltb_spec (Z.of_nat lw) 0); [lia | done]. }
  erewrite generate_signal_defined;
    [ | apply close_frame_wf | apply close_frame_lookup
      | exact Hs | exact Hl
      | apply (rolling_mean_iloc sw 1 qs ss Hs); lia
      | apply (rolling_mean_iloc sw 2 qs ss Hs); lia
      | apply (rolling_mean_iloc lw 1 qs sl Hl); lia
      | apply (rolling_mean_iloc lw 2 qs sl Hl); lia ].
  f_equal. apply crossover_BUY.
  rewrite Hlen.
  replace (S lw + 1 - 1)%nat with (S lw) by lia.
  replace (S lw + 1 - 2)%nat with lw by lia.
  rewrite (take_ge qs (S lw)) by lia.
  assert (take lw qs = replicate lw 0%Q) as ->
    by (unfold qs; rewrite take_app_length'; [done | by rewrite length_replicate]).
  assert (∀ n, (n ≤ lw)%nat → (Qsum (drop n qs) == 1)%Q) as Hone.
  { intros n Hn. unfold qs. rewrite drop_app_le by (rewrite length_replicate; lia).
    rewrite drop_replicate, Qsum_app, Qsum_zeros. simpl. lra. }
  rewrite !drop_replicate, !Qsum_zeros, !Hone by lia.
  split.
  - by apply inverse_lt.
  - apply Qle_lteq. right. unfold Qdiv. by rewrite !Qmult_0_l.
Qed.
End history.

(** * The claims on [generate_signal] and [__init__] *)

(** ** The run of [generate_signal] *)

Section run.
Variable rolling : Z → list Cell → Exn + list Cell.
Implicit Types (g : MovingAverageCrossoverSignalGenerator) (df : DataFrame)
               (close sma_short sma_long : list Cell).

(** Past the input checks and the two rolling means, the run is the
    guard, the four reads and the decision. *)
Lemma generate_signal_run_computed g df close sma_short sma_long :
  df_empty df = false →
  df_columns df !! "close" = Some close →
  long_window g ≤ Z.of_nat (df_index_len df) →
  rolling (short_window g) close = inr sma_short →
  rolling (long_window g) close = inr sma_long →
  generate_signal_run rolling g (PyDataFrame df)
  = let computed :=
      [(DEBUG, CalculatingSMAs (df_index_len df) (short_window g) (long_window g));
       (DEBUG, SMAShortTail (series_tail 3 sma_short));
       (DEBUG, SMALongTail (series_tail 3 sma_long))] in
    if nan_guard sma_short sma_long
    then (computed
          ++ [(WARNING, NotEnoughSMAValues (short_window g) (long_window g)
                          (df_index_len df))],
          inr HOLD)
    else
      match read_trailing sma_short sma_long with
      | inl e => (computed, inl e)
      | inr (cs, ps, cl, pl) =>
          let read := computed ++ [(DEBUG, ShortSMAs cs ps); (DEBUG, LongSMAs cl pl)] in
          if (isna cs || isna ps || isna cl || isna pl)%bool
          then (read ++ [(WARNING, NaNInSMAs)], inr HOLD)
          else (read ++ [(INFO, SignalGenerated (crossover cs ps cl pl) cs cl)],
                inr (crossover cs ps cl pl))
      end.
Proof.
  intros He Hc Hlen Hs Hl. unfold generate_signal_run.
  rewrite He, Hc.
  destruct (Z.ltb_spec (Z.of_nat (df_index_len df)) (long_window g)); [lia|].
  rewrite Hs, Hl. simpl. done.
Qed.

(** Past the guard the four reads are in range. *)
Lemma read_trailing_returns sma_short sma_long :
  nan_guard sma_short sma_long = false →
  ∃ cs ps cl pl,
    iloc_neg sma_short 1 = inr cs ∧ iloc_neg sma_short 2 = inr ps
    ∧ iloc_neg sma_long 1 = inr cl ∧ iloc_neg sma_long 2 = inr pl
    ∧ read_trailing sma_short sma_long = inr (cs, ps, cl, pl).
Proof.
  intros [Hs Hl]%nan_guard_false. unfold read_trailing.
  destruct (iloc_neg_in_range sma_short 1) as [cs Hcs]; [lia|].
  destruct (iloc_neg_in_range sma_short 2) as [ps Hps]; [lia|].
  destruct (iloc_neg_in_range sma_long 1) as [cl Hcl]; [lia|].
  destruct (iloc_neg_in_range sma_long 2) as [pl Hpl]; [lia|].
  exists cs, ps, cl, pl. by rewrite Hcs, Hps, Hcl, Hpl.
Qed.

(** With the four trailing averages defined, the run decides by
    [crossover]. *)
Lemma generate_signal_run_defined g df close sma_short sma_long cs ps cl pl :
  df_empty df = false →
  df_columns df !! "close" = Some close →
  long_window g ≤ Z.of_nat (df_index_len df) →
  rolling (short_window g) close = inr sma_short →
  rolling (long_window g) close = inr sma_long →
  iloc_neg sma_short 1 = inr (Some cs) →
  iloc_neg sma_short 2 = inr (Some ps) →
  iloc_neg sma_long 1 = inr (Some cl) →
  iloc_neg sma_long 2 = inr (Some pl) →
  (generate_signal_run rolling g (PyDataFrame df)).2
  = inr (crossover (Some cs) (Some ps) (Some cl) (Some pl)).
Proof.
  intros He Hc Hlen Hs Hl Hcs Hps Hcl Hpl.
  rewrite (generate_signal_run_computed g df close sma_short sma_long) by done.
  cbv zeta.
  pose proof (isna_sum_two_defined _ _ _ Hcs Hps) as Hns.
  pose proof (isna_sum_two_defined _ _ _ Hcl Hpl) as Hnl.
  rewrite (proj2 (nan_guard_false _ _)) by done.
  unfold read_trailing. rewrite Hcs, Hps, Hcl, Hpl. done.
Qed.
End run.

(** The run over the exact means returns what [generate_signal]
    returns. *)
Lemma generate_signal_run_exact g v :
  (generate_signal_run rolling_mean g v).2 = generate_signal g v.
Proof.
  destruct v as [| | |df]; try done. simpl.
  destruct (df_empty df); [done|].
  destruct (df_columns df !! "close") as [close|]; [|done].
  destruct (Z.of_nat (df_index_len df) <? long_window g); [done|].
  destruct (rolling_mean (short_window g) close) as [|sma_short]; [done|].
  destruct (rolling_mean (long_window g) close) as [|sma_long]; [done|].
  simpl. destruct (nan_guard sma_short sma_long); [done|].
  unfold read_trailing, read_and_decide.
  destruct (iloc_neg sma_short 1) as [|cs]; [done|].
  destruct (iloc_neg sma_short 2) as [|ps]; [done|].
  destruct (iloc_neg sma_long 1) as [|cl]; [done|].
  destruct (iloc_neg sma_long 2) as [|pl]; [done|]. simpl.
  by destruct (isna cs || isna ps || isna cl || isna pl)%bool.
Qed.

(** C1.  For the moving-average crossover generator, whenever the current
    and previous short averages [cs], [ps] and the current and previous
    long averages [cl], [pl] are all defined, [generate_signal] returns
    BUY iff [cs > cl] and [ps <= pl], returns SELL iff [cs < cl] and
    [ps >= pl], and returns HOLD in every other case: in particular when
    [cs = cl], and when the order of the two averages was already there at
    the previous row.  The averages are those of the series the rolling
    means returned on lines 103-104, whatever their rounding, for a frame
    that lines 87-99 let through. *)
Theorem crossover_verdict rolling g df close sma_short sma_long cs ps cl pl :
  df_empty df = false →
  df_columns df !! "close" = Some close →
  long_window g ≤ Z.of_nat (df_index_len df) →
  rolling (short_window g) close = inr sma_short →
  rolling (long_window g) close = inr sma_long →
  iloc_neg sma_short 1 = inr (Some cs) →
  iloc_neg sma_short 2 = inr (Some ps) →
  iloc_neg sma_long 1 = inr (Some cl) →
  iloc_neg sma_long 2 = inr (Some pl) →
  let verdict := (generate_signal_run rolling g (PyDataFrame df)).2 in
  (verdict = inr BUY ↔ (cs > cl ∧ ps <= pl)%Q)
  ∧ (verdict = inr SELL ↔ (cs < cl ∧ ps >= pl)%Q)
  ∧ (¬ (cs > cl ∧ ps <= pl)%Q → ¬ (cs < cl ∧ ps >= pl)%Q → verdict = inr HOLD)
  ∧ ((cs == cl)%Q → verdict = inr HOLD)
  ∧ ((cs > cl)%Q → (ps > pl)%Q → verdict = inr HOLD)
  ∧ ((cs < cl)%Q → (ps < pl)%Q → verdict = inr HOLD).
Proof.
  intros He Hc Hlen Hs Hl Hcs Hps Hcl Hpl verdict.
  assert (verdict = inr (crossover (Some cs) (Some ps) (Some cl) (Some pl))) as ->
    by (by eapply generate_signal_run_defined).
  assert (∀ a b : string, @inr Exn string a = inr b ↔ a = b) as Hinr
    by (intros a b; split; [by intros [= ->] | by intros ->]).
  rewrite !Hinr, crossover_BUY, crossover_SELL.
  repeat split; try tauto.
  - intros HnB HnS. by apply crossover_HOLD.
  - intros Heq. apply crossover_HOLD; intros []; lra.
  - intros Hc1 Hp1. apply crossover_HOLD; intros []; lra.
  - intros Hc1 Hp1. apply crossover_HOLD; intros []; lra.
Qed.

(** The witness: the closes 1.1, 1.3, 0.7, 0.7, 2.2, 0.9, 1.0, 1.0, 0.9
    as binary64 values, the windows 2 and 4, and the two series that a
    running sum in binary64 gives for them.  The exact averages of the
    decimal closes tie at the last row; in the series as computed the
    long average is one unit in the last place below the short one, and
    the verdict is BUY. *)
Lemma crossover_verdict_witness :
  let closes : list Cell :=
    [Some (2476979795053773 # 2251799813685248);
     Some (5854679515581645 # 4503599627370496);
     Some (3152519739159347 # 4503599627370496);
     Some (3152519739159347 # 4503599627370496);
     Some (2476979795053773 # 1125899906842624);
     Some (8106479329266893 # 9007199254740992);
     Some 1; Some 1;
     Some (8106479329266893 # 9007199254740992)]%Q in
  let computed (window : Z) (column : list Cell) : Exn + list Cell :=
    if window =? 2
    then inr [None; Some (1351079888211149 # 1125899906842624); Some 1;
              Some (3152519739159347 # 4503599627370496);
              Some (1632554864921805 # 1125899906842624);
              Some (6980579422424269 # 4503599627370496);
              Some (4278419646001971 # 4503599627370496); Some 1;
              Some (4278419646001971 # 4503599627370496)]%Q
    else inr [None; None; None; Some (4278419646001971 # 4503599627370496);
              Some (2758454771764429 # 2251799813685248); Some (9 # 8);
              Some (5404319552844595 # 4503599627370496);
              Some (2871044762448691 # 2251799813685248);
              Some (8556839292003941 # 9007199254740992)]%Q in
  let verdict :=
    (generate_signal_run computed {| short_window := 2; long_window := 4 |}
       (PyDataFrame (close_frame closes))).2 in
  let cs := (4278419646001971 # 4503599627370496)%Q in
  let ps := (1)%Q in
  let cl := (8556839292003941 # 9007199254740992)%Q in
  let pl := (2871044762448691 # 2251799813685248)%Q in
  (verdict = inr BUY ↔ (cs > cl ∧ ps <= pl)%Q)
  ∧ (verdict = inr SELL ↔ (cs < cl ∧ ps >= pl)%Q)
  ∧ (¬ (cs > cl ∧ ps <= pl)%Q → ¬ (cs < cl ∧ ps >= pl)%Q → verdict = inr HOLD)
  ∧ ((cs == cl)%Q → verdict = inr HOLD)
  ∧ ((cs > cl)%Q → (ps > pl)%Q → verdict = inr HOLD)
  ∧ ((cs < cl)%Q → (ps < pl)%Q → verdict = inr HOLD).
Proof.
  intros closes computed verdict cs ps cl pl.
  apply (crossover_verdict computed {| short_window := 2; long_window := 4 |}
           (close_frame closes) closes
           [None; Some (1351079888211149 # 1125899906842624); Some 1;
           Some (3152519739159347 # 4503599627370496);
           Some (1632554864921805 # 1125899906842624);
           Some (6980579422424269 # 4503599627370496);
           Some (4278419646001971 # 4503599627370496); Some 1;
           Some (4278419646001971 # 4503599627370496)]%Q
           [None; None; None; Some (4278419646001971 # 4503599627370496);
           Some (2758454771764429 # 2251799813685248); Some (9 # 8);
           Some (5404319552844595 # 4503599627370496);
           Some (2871044762448691 # 2251799813685248);
           Some (8556839292003941 # 9007199254740992)]%Q).
  - reflexivity.
  - apply close_frame_lookup.
  - simpl. lia.
  - reflexivity.
  - reflexivity.
  - reflexivity.
  - reflexivity.
  - reflexivity.
  - reflexivity.
Defined.

(** On that column the run over the series as computed returns BUY,
    where the exact means of [rolling_mean] tie and give HOLD. *)
Example tie_verdicts_f :
  let closes : list Cell :=
    [Some (2476979795053773 # 2251799813685248);
     Some (5854679515581645 # 4503599627370496);
     Some (3152519739159347 # 4503599627370496);
     Some (3152519739159347 # 4503599627370496);
     Some (2476979795053773 # 1125899906842624);
     Some (8106479329266893 # 9007199254740992);
     Some 1; Some 1;
     Some (8106479329266893 # 9007199254740992)]%Q in
  let computed (window : Z) (column : list Cell) : Exn + list Cell :=
    if window =? 2
    then inr [None; Some (1351079888211149 # 1125899906842624); Some 1;
              Some (3152519739159347 # 4503599627370496);
              Some (1632554864921805 # 1125899906842624);
              Some (6980579422424269 # 4503599627370496);
              Some (4278419646001971 # 4503599627370496); Some 1;
              Some (4278419646001971 # 4503599627370496)]%Q
    else inr [None; None; None; Some (4278419646001971 # 4503599627370496);
              Some (2758454771764429 # 2251799813685248); Some (9 # 8);
              Some (5404319552844595 # 4503599627370496);
              Some (2871044762448691 # 2251799813685248);
              Some (8556839292003941 # 9007199254740992)]%Q in
  (generate_signal_run computed {| short_window := 2; long_window := 4 |}
     (PyDataFrame (close_frame closes))).2 = inr BUY
  ∧ generate_signal {| short_window := 2; long_window := 4 |}
      (PyDataFrame (close_frame (prices [11; 13; 7; 7; 22; 9; 10; 10; 9])))
    = inr HOLD.
Proof. vm_compute. split; reflexivity. Qed.

(** C2, as the specification states it, fails at the windows 3 and 5: no
    series of five rows gets a verdict other than HOLD. *)
Lemma no_verdict_at_long_window :
  ¬ ∃ closes : list Cell,
      length closes = 5%nat
      ∧ generate_signal mavg_3_5 (PyDataFrame (close_frame closes)) ≠ inr HOLD.
Proof.
  intros (closes & Hlen & Hne). apply Hne.
  apply short_history_hold; [apply close_frame_wf|].
  simpl. rewrite Hlen. done.
Qed.

(** C2, amended.  For every crossover generator that was constructed from
    the windows [short_window] and [long_window], a series of at most
    [long_window] rows (so one of exactly [long_window - 1] rows, and one
    of exactly [long_window] rows) always yields HOLD; with
    [short_window >= 1], [long_window + 1] is the first length at which a
    verdict other than HOLD is returned for some series. *)
Theorem first_verdict_length sw lw g :
  init sw lw = inr g →
  (∀ df, df_wf df → Z.of_nat (df_index_len df) ≤ lw →
         generate_signal g (PyDataFrame df) = inr HOLD)
  ∧ (1 ≤ sw →
     ∃ closes verdict,
       Z.of_nat (length closes) = lw + 1
       ∧ generate_signal g (PyDataFrame (close_frame closes)) = inr verdict
       ∧ verdict ≠ HOLD).
Proof.
  unfold init. destruct (Z.geb_spec sw lw) as [|Hlt]; [done|].
  intros [= <-]. split.
  - intros df Hwf Hlen. by apply short_history_hold.
  - intros Hsw.
    exists (Some <$> (replicate (Z.to_nat lw) 0%Q ++ [1%Q])), BUY.
    split; [|split; [|done]].
    + rewrite length_fmap, length_app, length_replicate. simpl. lia.
    + rewrite <- (Z2Nat.id sw), <- (Z2Nat.id lw) at 1 by lia.
      apply rise_is_BUY. lia.
Qed.

Lemma first_verdict_length_witness :
  generate_signal mavg_3_5 (PyDataFrame (close_frame (take 4 bullish_closes)))
  = inr HOLD
  ∧ generate_signal mavg_3_5 (PyDataFrame (close_frame (take 5 bullish_closes)))
    = inr HOLD
  ∧ ∃ closes verdict,
      Z.of_nat (length closes) = 5 + 1
      ∧ generate_signal mavg_3_5 (PyDataFrame (close_frame closes)) = inr verdict
      ∧ verdict ≠ HOLD.
Proof.
  destruct (first_verdict_length 3 5 mavg_3_5) as [Hhold Hfirst]; [reflexivity|].
  split; [|split].
  - apply Hhold; [apply close_frame_wf | simpl; lia].
  - apply Hhold; [apply close_frame_wf | simpl; lia].
  - apply Hfirst. lia.
Defined.

(** C3.  For the generator with the windows 3 and 5 on the growing
    prefixes (5 to 9 rows) of the closes 20, 19, 18, 17, 16, 15, 18, 22,
    23, [generate_signal] returns HOLD for every prefix but one, the one
    of 8 rows, where it returns BUY.  That prefix is the first at which
    the short average exceeds the long one, and there it was at or below
    the long one at the row before; no BUY comes before it. *)
Theorem bullish_scenario :
  let prefix n := take n bullish_closes in
  let verdict n := generate_signal mavg_3_5 (PyDataFrame (close_frame (prefix n))) in
  init 3 5 = inr mavg_3_5
  ∧ verdict <$> [5; 6; 7; 8; 9]%nat
    = [inr HOLD; inr HOLD; inr HOLD; inr BUY; inr HOLD]
  ∧ (λ n, short_exceeds_long mavg_3_5 (prefix n)) <$> [5; 6; 7; 8]%nat
    = [inr false; inr false; inr false; inr true]
  ∧ short_was_at_or_below mavg_3_5 (prefix 8%nat) = inr true.
Proof. vm_compute. repeat split; reflexivity. Qed.

Lemma nan_guard_true (sma_short sma_long : list Cell) :
  nan_guard sma_short sma_long = true
  ↔ Z.of_nat (isna_sum sma_short) >= Z.of_nat (length sma_short) - 1
    ∨ Z.of_nat (isna_sum sma_long) >= Z.of_nat (length sma_long) - 1.
Proof. unfold nan_guard. rewrite orb_true_iff, !Z.geb_leb, !Z.leb_le. lia. Qed.

(** C4.  For every crossover generator and every frame with a [close]
    column and at least [long_window] rows, [generate_signal] returns
    HOLD whenever the number of NaN values of one of the two series of
    averages is at least the length of the series minus one.  It is this
    guard that decides, before the four trailing averages are read: the
    run then ends with the warning of line 112 and has read nothing, and
    it logs that warning in no other case.  It is not the stricter check
    that the current and the previous averages are defined: a series
    that the count lets through with an undefined trailing average is
    read, and rejected by the warning of line 126 instead. *)
Theorem nan_guard_decides rolling g df close sma_short sma_long :
  df_empty df = false →
  df_columns df !! "close" = Some close →
  long_window g ≤ Z.of_nat (df_index_len df) →
  rolling (short_window g) close = inr sma_short →
  rolling (long_window g) close = inr sma_long →
  let out := generate_signal_run rolling g (PyDataFrame df) in
  let computed :=
    [(DEBUG, CalculatingSMAs (df_index_len df) (short_window g) (long_window g));
     (DEBUG, SMAShortTail (series_tail 3 sma_short));
     (DEBUG, SMALongTail (series_tail 3 sma_long))] in
  let rejected :=
    (WARNING, NotEnoughSMAValues (short_window g) (long_window g)
                (df_index_len df)) in
  let counted :=
    Z.of_nat (isna_sum sma_short) >= Z.of_nat (length sma_short) - 1
    ∨ Z.of_nat (isna_sum sma_long) >= Z.of_nat (length sma_long) - 1 in
  (counted → out = (computed ++ [rejected], inr HOLD))
  ∧ (counted ↔ rejected ∈ out.1)
  ∧ (¬ counted →
     ∃ cs ps cl pl,
       read_trailing sma_short sma_long = inr (cs, ps, cl, pl)
       ∧ out
         = if (isna cs || isna ps || isna cl || isna pl)%bool
           then (computed ++ [(DEBUG, ShortSMAs cs ps); (DEBUG, LongSMAs cl pl)]
                 ++ [(WARNING, NaNInSMAs)],
                 inr HOLD)
           else (computed ++ [(DEBUG, ShortSMAs cs ps); (DEBUG, LongSMAs cl pl)]
                 ++ [(INFO, SignalGenerated (crossover cs ps cl pl) cs cl)],
                 inr (crossover cs ps cl pl)))
  ∧ (∃ close' short' long',
       rolling_mean 3 close' = inr short'
       ∧ rolling_mean 5 close' = inr long'
       ∧ ¬ (Z.of_nat (isna_sum short') >= Z.of_nat (length short') - 1
            ∨ Z.of_nat (isna_sum long') >= Z.of_nat (length long') - 1)
       ∧ isna_sum short' = 3%nat ∧ length short' = 10%nat
       ∧ isna_sum long' = 5%nat ∧ length long' = 10%nat
       ∧ iloc_neg short' 1 = inr None
       ∧ last (generate_signal_run rolling_mean mavg_3_5
                 (PyDataFrame (close_frame close'))).1
         = Some (WARNING, NaNInSMAs)).
Proof.
  intros He Hc Hlen Hs Hl out computed rejected counted.
  assert (counted ↔ nan_guard sma_short sma_long = true) as Hguard
    by (subst counted; symmetry; apply nan_guard_true).
  clearbody counted.
  assert (out = _) as Hout
    by apply (generate_signal_run_computed rolling g df close sma_short sma_long
                He Hc Hlen Hs Hl).
  cbv zeta in Hout. fold computed rejected in Hout.
  assert (counted → out = (computed ++ [rejected], inr HOLD)) as Hyes.
  { intros Hcount%Hguard. by rewrite Hout, Hcount. }
  assert (¬ counted →
          ∃ cs ps cl pl,
            read_trailing sma_short sma_long = inr (cs, ps, cl, pl)
            ∧ out
              = if (isna cs || isna ps || isna cl || isna pl)%bool
                then (computed ++ [(DEBUG, ShortSMAs cs ps); (DEBUG, LongSMAs cl pl)]
                      ++ [(WARNING, NaNInSMAs)],
                      inr HOLD)
                else (computed ++ [(DEBUG, ShortSMAs cs ps); (DEBUG, LongSMAs cl pl)]
                      ++ [(INFO, SignalGenerated (crossover cs ps cl pl) cs cl)],
                      inr (crossover cs ps cl pl))) as Hno.
  { intros Hcount. rewrite Hguard in Hcount.
    apply not_true_is_false in Hcount.
    destruct (read_trailing_returns _ _ Hcount)
      as (cs & ps & cl & pl & _ & _ & _ & _ & Hread).
    exists cs, ps, cl, pl. split; [done|].
    rewrite Hout, Hcount, Hread.
    destruct (isna cs || isna ps || isna cl || isna pl)%bool;
      by rewrite <- app_assoc. }
  split; [done|]. split; [|split; [done|]].
  - split.
    + intros Hcount. rewrite (Hyes Hcount). simpl.
      do 3 apply list_elem_of_further. apply list_elem_of_here.
    + intros Hin.
      destruct (decide (nan_guard sma_short sma_long = true)) as [Hg|Hg];
        [by apply Hguard|].
      exfalso. rewrite <- Hguard in Hg.
      destruct (Hno Hg) as (cs & ps & cl & pl & _ & Heq). rewrite Heq in Hin.
      destruct (isna cs || isna ps || isna cl || isna pl)%bool; simpl in Hin;
        repeat (apply elem_of_cons in Hin as [Hin|Hin]; [discriminate Hin|]);
        by apply elem_of_nil in Hin.
  - exists (bullish_closes ++ [None]). eexists _, _.
    split; [vm_compute; reflexivity|]. split; [vm_compute; reflexivity|].
    split; [vm_compute; by intros [|]|].
    repeat (split; [reflexivity|]). vm_compute. reflexivity.
Qed.

Lemma nan_guard_decides_witness :
  generate_signal_run rolling_mean mavg_3_5
    (PyDataFrame (close_frame (take 5 bullish_closes)))
  = ([(DEBUG, CalculatingSMAs 5 3 5);
      (DEBUG, SMAShortTail [Some (57 # 3); Some (54 # 3); Some (51 # 3)]%Q);
      (DEBUG, SMALongTail [None; None; Some (90 # 5)]%Q);
      (WARNING, NotEnoughSMAValues 3 5 5)],
     inr HOLD).
Proof.
  refine (proj1 (nan_guard_decides rolling_mean mavg_3_5
                   (close_frame (take 5 bullish_closes))
                   (take 5 bullish_closes)
                   [None; None; Some (57 # 3); Some (54 # 3); Some (51 # 3)]%Q
                   [None; None; None; None; Some (90 # 5)]%Q _ _ _ _ _) _).
  - reflexivity.
  - apply close_frame_lookup.
  - simpl. lia.
  - vm_compute. reflexivity.
  - vm_compute. reflexivity.
  - right. vm_compute. discriminate.
Defined.

(** C5.  For every input of [generate_signal] that is not a DataFrame
    ([None], a plain list, ...), or is an empty frame, or is a frame
    without a [close] column, the call returns HOLD and does not raise. *)
Theorem malformed_input_hold g v :
  (∀ df, v = PyDataFrame df →
         df_empty df = true ∨ df_columns df !! "close" = None) →
  generate_signal g v = inr HOLD.
Proof.
  intros Hv. destruct v as [| | |df]; try done.
  simpl. destruct (Hv df eq_refl) as [-> | Hc]; [done|].
  rewrite Hc. by destruct (df_empty df).
Qed.

Lemma malformed_input_hold_witness :
  generate_signal mavg_3_5 PyNone = inr HOLD
  ∧ generate_signal mavg_3_5 (PyList (inject_Z <$> [1; 2; 3; 4; 5; 6; 7; 8; 9; 10]))
    = inr HOLD
  ∧ generate_signal mavg_3_5 (PyDataFrame (close_frame [])) = inr HOLD
  ∧ generate_signal mavg_3_5
      (PyDataFrame {| df_index_len := 3;
                      df_columns := {[ "open" := prices [1; 2; 3] ]} |})
    = inr HOLD.
Proof.
  split; [|split; [|split]].
  - apply malformed_input_hold. intros df Hdf. discriminate Hdf.
  - apply malformed_input_hold. intros df Hdf. discriminate Hdf.
  - apply malformed_input_hold. intros df [= <-]. left. reflexivity.
  - apply malformed_input_hold. intros df [= <-]. right. reflexivity.
Defined.

(** C6.  Constructing a crossover generator raises a configuration error
    iff [short_window >= long_window]: for every such pair the
    construction fails and does not succeed, and for every pair with
    [short_window < long_window] it succeeds and stores both windows. *)
Theorem init_window_invariant sw lw :
  ((∃ e, init sw lw = inl e) ↔ sw >= lw)
  ∧ (sw >= lw →
     init sw lw = inl (ValueError "short_window must be less than long_window")
     ∧ ∀ g, init sw lw ≠ inr g)
  ∧ (sw < lw →
     ∃ g, init sw lw = inr g ∧ short_window g = sw ∧ long_window g = lw).
Proof.
  unfold init. destruct (Z.geb_spec sw lw) as [Hge|Hlt].
  - split; [|split].
    + split; [lia | eauto].
    + done.
    + lia.
  - split; [|split].
    + split; [by intros [e ?] | lia].
    + lia.
    + intros _. eauto.
Qed.

Lemma init_window_invariant_witness :
  init 10 5 = inl (ValueError "short_window must be less than long_window")
  ∧ init 5 5 = inl (ValueError "short_window must be less than long_window")
  ∧ ∃ g, init 3 5 = inr g ∧ short_window g = 3 ∧ long_window g = 5.
Proof.
  split; [|split].
  - apply (init_window_invariant 10 5). lia.
  - apply (init_window_invariant 5 5). lia.
  - apply (init_window_invariant 3 5). lia.
Defined.

(** * The claims on [execute_trade] *)

Section execute_trade.
Implicit Types (self : TradingEngine) (ex : Exchange) (w : World)
               (symbol signal : string) (quantity : Q).

(** Without a gateway, nothing is requested. *)
Lemma execute_trade_not_initialized self symbol signal quantity w :
  exchange_handler self ≫= exchange = None →
  execute_trade self symbol signal quantity w
  = (inr None, {| gateway_calls := gateway_calls w;
                  log_records := log_records w ++ [(ERROR, NotInitialized)] |}).
Proof. intros Hex. unfold execute_trade. by rewrite Hex. Qed.

Lemma execute_trade_HOLD self ex symbol quantity w :
  exchange_handler self ≫= exchange = Some ex →
  execute_trade self symbol "HOLD" quantity w
  = (inr None, {| gateway_calls := gateway_calls w;
                  log_records := log_records w ++ [(INFO, SignalIsHold symbol)] |}).
Proof. intros Hex. unfold execute_trade. by rewrite Hex. Qed.

Lemma execute_trade_invalid self ex symbol signal quantity w :
  exchange_handler self ≫= exchange = Some ex →
  signal ≠ "BUY" → signal ≠ "SELL" → signal ≠ "HOLD" →
  execute_trade self symbol signal quantity w
  = (inr None,
     {| gateway_calls := gateway_calls w;
        log_records := log_records w ++ [(WARNING, InvalidSignal signal symbol)] |}).
Proof.
  intros Hex HB%String.eqb_neq HS%String.eqb_neq HH%String.eqb_neq.
  unfold execute_trade. by rewrite Hex, HB, HS, HH.
Qed.

(** A BUY is one buy request; what the gateway answers decides the
    rest. *)
Lemma execute_trade_BUY self ex symbol quantity w :
  exchange_handler self ≫= exchange = Some ex →
  execute_trade self symbol "BUY" quantity w
  = match create_market_buy_order ex symbol quantity with
    | inr order_result =>
        (inr order_result,
         {| gateway_calls := gateway_calls w ++ [MarketBuy symbol quantity];
            log_records :=
              log_records w
              ++ [(INFO, AttemptBuy quantity symbol);
                  (INFO, BuySuccessful symbol order_result);
                  (DEBUG, FullOrderResult symbol "BUY" order_result)] |})
    | inl e =>
        (inr None,
         {| gateway_calls := gateway_calls w ++ [MarketBuy symbol quantity];
            log_records :=
              log_records w
              ++ [(INFO, AttemptBuy quantity symbol);
                  (ERROR,
                   match e with
                   | InsufficientFunds _ => InsufficientFundsFor "BUY" symbol e
                   | NetworkError _ => NetworkErrorDuring "BUY" symbol e
                   | ExchangeError _ => ExchangeErrorDuring "BUY" symbol e
                   | _ => UnexpectedError "BUY" symbol e
                   end)] |})
    end.
Proof.
  intros Hex. unfold execute_trade. rewrite Hex.
  unfold try_except, mbind, eff_bind, request, log. simpl.
  destruct (create_market_buy_order ex symbol quantity) as [e|r]; simpl.
  - destruct e; simpl; by rewrite <- app_assoc.
  - by rewrite <- !app_assoc.
Qed.

Lemma execute_trade_SELL self ex symbol quantity w :
  exchange_handler self ≫= exchange = Some ex →
  execute_trade self symbol "SELL" quantity w
  = match create_market_sell_order ex symbol quantity with
    | inr order_result =>
        (inr order_result,
         {| gateway_calls := gateway_calls w ++ [MarketSell symbol quantity];
            log_records :=
              log_records w
              ++ [(INFO, AttemptSell quantity symbol);
                  (INFO, SellSuccessful symbol order_result);
                  (DEBUG, FullOrderResult symbol "SELL" order_result)] |})
    | inl e =>
        (inr None,
         {| gateway_calls := gateway_calls w ++ [MarketSell symbol quantity];
            log_records :=
              log_records w
              ++ [(INFO, AttemptSell quantity symbol);
                  (ERROR,
                   match e with
                   | InsufficientFunds _ => InsufficientFundsFor "SELL" symbol e
                   | NetworkError _ => NetworkErrorDuring "SELL" symbol e
                   | ExchangeError _ => ExchangeErrorDuring "SELL" symbol e
                   | _ => UnexpectedError "SELL" symbol e
                   end)] |})
    end.
Proof.
  intros Hex. unfold execute_trade. rewrite Hex.
  unfold try_except, mbind, eff_bind, request, log. simpl.
  destruct (create_market_sell_order ex symbol quantity) as [e|r]; simpl.
  - destruct e; simpl; by rewrite <- app_assoc.
  - by rewrite <- !app_assoc.
Qed.

(** Whatever the engine and the signal, [execute_trade] returns. *)
Lemma execute_trade_returns self symbol signal quantity w :
  ∃ r, (execute_trade self symbol signal quantity w).1 = inr r.
Proof.
  destruct (exchange_handler self ≫= exchange) as [ex|] eqn:Hex.
  - destruct (decide (signal = "BUY")) as [->|HB].
    { rewrite (execute_trade_BUY _ ex) by done. case_match; eauto. }
    destruct (decide (signal = "SELL")) as [->|HS].
    { rewrite (execute_trade_SELL _ ex) by done. case_match; eauto. }
    destruct (decide (signal = "HOLD")) as [->|HH].
    { rewrite (execute_trade_HOLD _ ex) by done. eauto. }
    rewrite (execute_trade_invalid _ ex) by done. eauto.
  - rewrite execute_trade_not_initialized by done. eauto.
Qed.

(** No request is made for a signal other than BUY and SELL. *)
Lemma execute_trade_no_request self symbol signal quantity w :
  signal ≠ "BUY" → signal ≠ "SELL" →
  (execute_trade self symbol signal quantity w).1 = inr None
  ∧ gateway_calls (execute_trade self symbol signal quantity w).2 = gateway_calls w.
Proof.
  intros HB HS.
  destruct (exchange_handler self ≫= exchange) as [ex|] eqn:Hex.
  - destruct (decide (signal = "HOLD")) as [->|HH].
    + by rewrite (execute_trade_HOLD _ ex).
    + by rewrite (execute_trade_invalid _ ex).
  - by rewrite execute_trade_not_initialized.
Qed.
End execute_trade.

(** C7.  For every symbol and quantity, [execute_trade] with the signal
    HOLD makes no gateway call and returns [None], and [execute_trade]
    with a signal it does not know (such as WAIT) makes no gateway call
    and returns [None], without raising. *)
Theorem hold_and_unknown_signal self symbol quantity w :
  ((execute_trade self symbol "HOLD" quantity w).1 = inr None
   ∧ gateway_calls (execute_trade self symbol "HOLD" quantity w).2 = gateway_calls w)
  ∧ ((execute_trade self symbol "WAIT" quantity w).1 = inr None
     ∧ gateway_calls (execute_trade self symbol "WAIT" quantity w).2 = gateway_calls w)
  ∧ (∀ signal, signal ≠ "BUY" → signal ≠ "SELL" → signal ≠ "HOLD" →
       (execute_trade self symbol signal quantity w).1 = inr None
       ∧ gateway_calls (execute_trade self symbol signal quantity w).2
         = gateway_calls w).
Proof.
  split; [|split].
  - by apply execute_trade_no_request.
  - by apply execute_trade_no_request.
  - intros signal HB HS _. by apply execute_trade_no_request.
Qed.

Lemma hold_and_unknown_signal_witness :
  execute_trade trading_engine "ADA/USDT" "HOLD" 100 world0
  = (inr None, {| gateway_calls := [];
                  log_records := [(INFO, SignalIsHold "ADA/USDT")] |})
  ∧ (execute_trade trading_engine "SOL/USDT" "PAUSE" 10 world0).1 = inr None
  ∧ gateway_calls (execute_trade trading_engine "SOL/USDT" "PAUSE" 10 world0).2 = [].
Proof.
  split; [reflexivity|].
  refine (proj2 (proj2 (hold_and_unknown_signal trading_engine "SOL/USDT" 10
                          world0)) "PAUSE" _ _ _); discriminate.
Defined.

(** C8.  For every BUY or SELL dispatch, if the gateway's order call
    raises (insufficient funds, a network error, an exchange error or any
    other exception), [execute_trade] returns [None] and does not pass the
    exception on; the outcome is the same for every kind of failure. *)
Theorem gateway_failure_absorbed self ex symbol quantity w e :
  exchange_handler self ≫= exchange = Some ex →
  (create_market_buy_order ex symbol quantity = inl e →
   (execute_trade self symbol "BUY" quantity w).1 = inr None)
  ∧ (create_market_sell_order ex symbol quantity = inl e →
     (execute_trade self symbol "SELL" quantity w).1 = inr None).
Proof.
  intros Hex. split; intros He.
  - by rewrite (execute_trade_BUY _ ex), He.
  - by rewrite (execute_trade_SELL _ ex), He.
Qed.

Lemma gateway_failure_absorbed_witness :
  (execute_trade trading_engine "FAIL/USDT" "BUY" 1 world0).1 = inr None
  ∧ (execute_trade trading_engine "FUNDS/USDT" "BUY" 1 world0).1 = inr None.
Proof.
  split.
  - refine (proj1 (gateway_failure_absorbed trading_engine MockCCXTExchange
                     "FAIL/USDT" 1 world0
                     (ExchangeError "Mock exchange error for FAIL/USDT") _) _);
      reflexivity.
  - refine (proj1 (gateway_failure_absorbed trading_engine MockCCXTExchange
                     "FUNDS/USDT" 1 world0
                     (InsufficientFunds "Mock insufficient funds for FUNDS/USDT") _) _);
      reflexivity.
Defined.

(** C9.  For every BUY or SELL signal where the gateway call succeeds,
    [execute_trade] returns the gateway's order result as it is: the very
    value, with every field, reaches the caller. *)
Theorem order_result_passes_through self ex symbol quantity w order_result :
  exchange_handler self ≫= exchange = Some ex →
  (create_market_buy_order ex symbol quantity = inr order_result →
   (execute_trade self symbol "BUY" quantity w).1 = inr order_result)
  ∧ (create_market_sell_order ex symbol quantity = inr order_result →
     (execute_trade self symbol "SELL" quantity w).1 = inr order_result).
Proof.
  intros Hex. split; intros Hr.
  - by rewrite (execute_trade_BUY _ ex), Hr.
  - by rewrite (execute_trade_SELL _ ex), Hr.
Qed.

Lemma order_result_passes_through_witness :
  (execute_trade trading_engine "BTC/USDT" "BUY" (1 # 100) world0).1
  = create_market_buy_order MockCCXTExchange "BTC/USDT" (1 # 100)
  ∧ (execute_trade trading_engine "ETH/USDT" "SELL" (1 # 2) world0).1
    = create_market_sell_order MockCCXTExchange "ETH/USDT" (1 # 2).
Proof.
  split.
  - refine (proj1 (order_result_passes_through trading_engine MockCCXTExchange
                     "BTC/USDT" (1 # 100) world0 _ _) _); reflexivity.
  - refine (proj2 (order_result_passes_through trading_engine MockCCXTExchange
                     "ETH/USDT" (1 # 2) world0 _ _) _); reflexivity.
Defined.

(** C10.  [execute_trade] matches the signal exactly and with case
    against BUY, SELL and HOLD: the gateway gets a request iff the signal
    is the string BUY or the string SELL, and every other string but
    HOLD, the lowercase buy and sell among them, is an invalid signal:
    no gateway call is made, a warning is logged and [None] is
    returned. *)
Theorem signal_match_is_exact self ex symbol signal quantity w :
  exchange_handler self ≫= exchange = Some ex →
  let out := execute_trade self symbol signal quantity w in
  (gateway_calls out.2 = gateway_calls w ++ [MarketBuy symbol quantity]
   ↔ signal = "BUY")
  ∧ (gateway_calls out.2 = gateway_calls w ++ [MarketSell symbol quantity]
     ↔ signal = "SELL")
  ∧ (signal ≠ "BUY" → signal ≠ "SELL" → signal ≠ "HOLD" →
     out = (inr None,
            {| gateway_calls := gateway_calls w;
               log_records :=
                 log_records w ++ [(WARNING, InvalidSignal signal symbol)] |}))
  ∧ (signal = "buy" ∨ signal = "sell" ∨ signal = "hold" →
     out.1 = inr None ∧ gateway_calls out.2 = gateway_calls w
     ∧ log_records out.2
       = log_records w ++ [(WARNING, InvalidSignal signal symbol)]).
Proof.
  intros Hex out.
  assert (∀ c, gateway_calls w ≠ gateway_calls w ++ [c]) as Hgrow.
  { intros c Heq%(f_equal length). rewrite length_app in Heq. simpl in Heq. lia. }
  assert (signal ≠ "BUY" → signal ≠ "SELL" → gateway_calls out.2 = gateway_calls w)
    as Hnone by (intros; by apply execute_trade_no_request).
  split; [|split; [|split]].
  - split.
    + intros Hcalls. destruct (decide (signal = "BUY")) as [|HB]; [done|].
      destruct (decide (signal = "SELL")) as [->|HS].
      * subst out. rewrite (execute_trade_SELL _ ex) in Hcalls by done.
        destruct (create_market_sell_order ex symbol quantity);
          simpl in Hcalls; by apply app_inv_head in Hcalls.
      * rewrite Hnone in Hcalls by done. by apply Hgrow in Hcalls.
    + intros ->. subst out. rewrite (execute_trade_BUY _ ex) by done.
      by destruct (create_market_buy_order ex symbol quantity).
  - split.
    + intros Hcalls. destruct (decide (signal = "SELL")) as [|HS]; [done|].
      destruct (decide (signal = "BUY")) as [->|HB].
      * subst out. rewrite (execute_trade_BUY _ ex) in Hcalls by done.
        destruct (create_market_buy_order ex symbol quantity);
          simpl in Hcalls; by apply app_inv_head in Hcalls.
      * rewrite Hnone in Hcalls by done. by apply Hgrow in Hcalls.
    + intros ->. subst out. rewrite (execute_trade_SELL _ ex) by done.
      by destruct (create_market_sell_order ex symbol quantity).
  - intros HB HS HH. by apply execute_trade_invalid with ex.
  - intros Hlow. subst out.
    rewrite (execute_trade_invalid _ ex); [done | done | ..];
      destruct Hlow as [-> | [-> | ->]]; discriminate.
Qed.

Lemma signal_match_is_exact_witness :
  execute_trade trading_engine "BTC/USDT" "buy" (1 # 100) world0
  = (inr None,
     {| gateway_calls := [];
        log_records := [(WARNING, InvalidSignal "buy" "BTC/USDT")] |}).
Proof.
  refine (proj1 (proj2 (proj2 (signal_match_is_exact trading_engine
                                 MockCCXTExchange "BTC/USDT" "buy" (1 # 100)
                                 world0 _))) _ _ _);
    [reflexivity | discriminate..].
Defined.

(** * Further properties of [generate_signal] *)

Section verdicts.
Implicit Types (g : MovingAverageCrossoverSignalGenerator) (df : DataFrame)
               (s l : list Cell).

Lemma crossover_signal (cs ps cl pl : Cell) :
  crossover cs ps cl pl ∈ [BUY; SELL; HOLD].
Proof. unfold crossover. repeat case_match; set_solver. Qed.

(** What [read_and_decide] returns once the four reads are known. *)
Lemma read_and_decide_cells s l (cs ps cl pl : Cell) :
  iloc_neg s 1 = inr cs → iloc_neg s 2 = inr ps →
  iloc_neg l 1 = inr cl → iloc_neg l 2 = inr pl →
  read_and_decide s l
  = inr (if (isna cs || isna ps || isna cl || isna pl)%bool then HOLD
         else crossover cs ps cl pl).
Proof.
  intros Hcs Hps Hcl Hpl. unfold read_and_decide.
  rewrite Hcs, Hps, Hcl, Hpl. simpl. by case_match.
Qed.

Lemma read_and_decide_signal s l signal :
  read_and_decide s l = inr signal → signal ∈ [BUY; SELL; HOLD].
Proof.
  unfold read_and_decide.
  destruct (iloc_neg s 1) as [|cs]; [done|].
  destruct (iloc_neg s 2) as [|ps]; [done|].
  destruct (iloc_neg l 1) as [|cl]; [done|].
  destruct (iloc_neg l 2) as [|pl]; [done|]. simpl.
  case_match; intros [= <-]; [set_solver | apply crossover_signal].
Qed.

(** A series that the guard rejects has an undefined value among its
    last two. *)
Lemma guarded_series_trailing_nan s (c p : Cell) :
  iloc_neg s 1 = inr c → iloc_neg s 2 = inr p →
  (Z.of_nat (isna_sum s) >=? Z.of_nat (length s) - 1) = true →
  (isna c || isna p)%bool = true.
Proof.
  intros Hc Hp Hg. destruct c as [a|], p as [b|]; try done.
  pose proof (isna_sum_two_defined _ _ _ Hc Hp). lia.
Qed.
(** On series of two averages or more, what the guard rejects the NaN
    check rejects too. *)
Lemma guarded_read_hold s l :
  nan_guard s l = true → (2 ≤ length s)%nat → (2 ≤ length l)%nat →
  read_and_decide s l = inr HOLD.
Proof.
  intros Hg Hs Hl.
  destruct (iloc_neg_in_range s 1) as [cs Hcs]; [lia|].
  destruct (iloc_neg_in_range s 2) as [ps Hps]; [lia|].
  destruct (iloc_neg_in_range l 1) as [cl Hcl]; [lia|].
  destruct (iloc_neg_in_range l 2) as [pl Hpl]; [lia|].
  rewrite (read_and_decide_cells _ _ _ _ _ _ Hcs Hps Hcl Hpl).
  unfold nan_guard in Hg. apply orb_true_iff in Hg as [Hg|Hg].
  - apply (guarded_series_trailing_nan _ _ _ Hcs Hps) in Hg.
    apply orb_true_iff in Hg as [-> | ->]; simpl; by rewrite ?orb_true_r.
  - apply (guarded_series_trailing_nan _ _ _ Hcl Hpl) in Hg.
    apply orb_true_iff in Hg as [-> | ->]; simpl; by rewrite ?orb_true_r.
Qed.

End verdicts.

(** Every call returns one of the three signals. *)
Lemma generate_signal_signals g v :
  ∃ signal, generate_signal g v = inr signal ∧ signal ∈ [BUY; SELL; HOLD].
Proof.
  assert (HOLD ∈ [BUY; SELL; HOLD]) as Hhold by set_solver.
  destruct v as [| | |df]; simpl; eauto.
  destruct (df_empty df); eauto.
  destruct (df_columns df !! "close") as [close|]; eauto.
  case_match; eauto.
  destruct (rolling_mean (short_window g) close) as [|sma_short]; simpl; eauto.
  destruct (rolling_mean (long_window g) close) as [|sma_long]; simpl; eauto.
  destruct (nan_guard sma_short sma_long) eqn:Hg; eauto.
  destruct (read_and_decide_returns _ _ Hg) as [signal Hs].
  exists signal. split; [done|]. by eapply read_and_decide_signal.
Qed.

(** X1.  [generate_signal] returns for every generator (whatever its
    windows) and every input, and what it returns is one of BUY, SELL
    and HOLD: no [IndexError] of the reads [iloc[-1]], [iloc[-2]] and no
    error of the rolling means reaches the caller. *)
Theorem generate_signal_verdict g v :
  ∃ signal, generate_signal g v = inr signal ∧ signal ∈ [BUY; SELL; HOLD].
Proof. apply generate_signal_signals. Qed.

(** X2.  The NaN guard of line 111 never changes a verdict: on two series
    of at least two averages each, whatever the guard rejects the check of
    lines 124-127 would answer with HOLD too.  What the guard adds is the
    short series: on a series of fewer than two averages the guard always
    holds, and there the reads of lines 116-119 would raise an
    [IndexError]. *)
Theorem nan_guard_subsumed (sma_short sma_long : list Cell) :
  ((length sma_short < 2)%nat ∨ (length sma_long < 2)%nat →
   nan_guard sma_short sma_long = true
   ∧ read_and_decide sma_short sma_long = inl IndexError)
  ∧ ((2 ≤ length sma_short)%nat → (2 ≤ length sma_long)%nat →
     nan_guard sma_short sma_long = true →
     read_and_decide sma_short sma_long = inr HOLD).
Proof.
  split.
  - intros Hshort. split.
    + apply nan_guard_true.
      pose proof (isna_sum_le_length sma_short).
      pose proof (isna_sum_le_length sma_long). lia.
    + unfold read_and_decide.
      assert (∀ s : list Cell, (length s < 2)%nat → iloc_neg s 2 = inl IndexError)
        as Hraise.
      { intros s Hs. unfold iloc_neg.
        by destruct (Nat.leb_spec 2 (length s)); [lia|]. }
      assert (∀ s : list Cell,
                iloc_neg s 1 = inl IndexError ∨ ∃ c, iloc_neg s 1 = inr c)
        as Hone.
      { intros s. unfold iloc_neg. repeat case_match; eauto. }
      destruct (decide (length sma_short < 2)%nat) as [Hs|Hs].
      * rewrite (Hraise _ Hs). by destruct (Hone sma_short) as [-> | [c ->]].
      * destruct Hshort as [|Hl]; [done|].
        destruct (iloc_neg_in_range sma_short 1) as [cs ->]; [lia|].
        destruct (iloc_neg_in_range sma_short 2) as [ps ->]; [lia|]. simpl.
        rewrite (Hraise _ Hl). by destruct (Hone sma_long) as [-> | [c ->]].
  - intros Hs Hl Hg. by apply guarded_read_hold.
Qed.

Lemma nan_guard_subsumed_witness :
  (nan_guard [Some 1%Q] [Some 1%Q] = true
   ∧ read_and_decide [Some 1%Q] [Some 1%Q] = inl IndexError)
  ∧ read_and_decide [None; Some 1%Q; None] [None; None; Some 2%Q] = inr HOLD.
Proof.
  split.
  - apply (proj1 (nan_guard_subsumed [Some 1%Q] [Some 1%Q])). left. simpl. lia.
  - apply (proj2 (nan_guard_subsumed [None; Some 1%Q; None]
                    [None; None; Some 2%Q])); [simpl; lia | simpl; lia | reflexivity].
Defined.

Section trailing_rows.
Implicit Types (g : MovingAverageCrossoverSignalGenerator) (df : DataFrame)
               (xs close : list Cell).

Lemma rolling_mean_nonneg w xs :
  0 ≤ w →
  rolling_mean w xs
  = inr (map (λ i, window_mean (Z.to_nat w) (window_at (Z.to_nat w) xs i))
             (seq 0 (length xs))).
Proof. intros Hw. unfold rolling_mean. by destruct (Z.ltb_spec w 0); [lia|]. Qed.

(** A negative window makes the rolling mean raise, which
    [generate_signal] answers with HOLD. *)
Lemma negative_window_hold g v :
  short_window g < 0 ∨ long_window g < 0 → generate_signal g v = inr HOLD.
Proof.
  intros Hneg. destruct v as [| | |df]; try done. simpl.
  destruct (df_empty df); [done|].
  destruct (df_columns df !! "close") as [close|]; [|done].
  case_match; [done|].
  unfold rolling_mean.
  destruct (Z.ltb_spec (short_window g) 0); [done|].
  destruct (Z.ltb_spec (long_window g) 0); [done | lia].
Qed.

(** A window of length 0 has no mean: all its averages are NaN, and the
    guard answers HOLD. *)
Lemma rolling_mean_zero xs s :
  rolling_mean 0 xs = inr s → isna_sum s = length s.
Proof.
  intros [_ ->]%rolling_mean_inr. apply isna_sum_all_nan.
  apply Forall_fmap, Forall_seq. intros i _. simpl.
  unfold window_at. by rewrite Nat.sub_0_r, drop_ge by (rewrite length_take; lia).
Qed.

Lemma zero_window_hold g v :
  short_window g = 0 ∨ long_window g = 0 → generate_signal g v = inr HOLD.
Proof.
  intros Hzero. destruct v as [| | |df]; try done. simpl.
  destruct (df_empty df); [done|].
  destruct (df_columns df !! "close") as [close|]; [|done].
  case_match; [done|].
  destruct (rolling_mean (short_window g) close) as [|ss] eqn:Hs; [done|].
  destruct (rolling_mean (long_window g) close) as [|sl] eqn:Hl; [done|].
  simpl. destruct (nan_guard ss sl) eqn:Hg; [done|].
  apply nan_guard_false in Hg as [Hgs Hgl].
  destruct Hzero as [Hz|Hz]; rewrite Hz in *.
  - apply rolling_mean_zero in Hs. lia.
  - apply rolling_mean_zero in Hl. lia.
Qed.

(** The verdict, from the four windows at the end of the column. *)
Lemma generate_signal_trailing g df close n :
  df_wf df → df_columns df !! "close" = Some close →
  length close = S (S n) →
  0 ≤ short_window g → 0 ≤ long_window g →
  long_window g ≤ Z.of_nat (length close) →
  let mean w i := window_mean (Z.to_nat w) (window_at (Z.to_nat w) close i) in
  let cs := mean (short_window g) (S n) in
  let ps := mean (short_window g) n in
  let cl := mean (long_window g) (S n) in
  let pl := mean (long_window g) n in
  generate_signal g (PyDataFrame df)
  = inr (if (isna cs || isna ps || isna cl || isna pl)%bool then HOLD
         else crossover cs ps cl pl).
Proof.
  intros Hwf Hc Hlen Hsw Hlw Hlong mean cs ps cl pl.
  pose proof (wf_close_length _ _ Hwf Hc) as Hidx.
  pose proof (rolling_mean_nonneg _ close Hsw) as Hs.
  pose proof (rolling_mean_nonneg _ close Hlw) as Hl.
  set (ss := map _ _) in Hs. set (sl := map _ _) in Hl.
  pose proof (rolling_mean_length _ _ _ Hs) as Hss.
  pose proof (rolling_mean_length _ _ _ Hl) as Hsl.
  assert (∀ w s k i, rolling_mean w close = inr s → (1 ≤ k ≤ 2)%nat →
            (S (S n) - k)%nat = i →
            iloc_neg s k
            = inr (window_mean (Z.to_nat w) (window_at (Z.to_nat w) close i)))
    as Hread.
  { intros w s k i Hr Hk <-. pose proof (rolling_mean_length _ _ _ Hr) as Hrl.
    apply iloc_neg_inr. split; [lia|].
    rewrite Hrl, Hlen. apply (rolling_mean_lookup _ _ _ _ Hr). lia. }
  assert (read_and_decide ss sl
          = inr (if (isna cs || isna ps || isna cl || isna pl)%bool then HOLD
                 else crossover cs ps cl pl)) as Hrd.
  { apply read_and_decide_cells.
    - apply (Hread _ _ 1%nat _ Hs); lia.
    - apply (Hread _ _ 2%nat _ Hs); lia.
    - apply (Hread _ _ 1%nat _ Hl); lia.
    - apply (Hread _ _ 2%nat _ Hl); lia. }
  rewrite (generate_signal_frame g df close ss sl); try done.
  - destruct (nan_guard ss sl) eqn:Hg; [|done].
    rewrite <- Hrd. symmetry. apply guarded_read_hold; [done | lia..].
  - eapply df_not_empty; [done | lia].
  - lia.
Qed.

(** The window that ends at row [d + i] lies in the rows from [d] on when
    it is no longer than [i + 1]. *)
Lemma window_at_drop w xs d i :
  (w ≤ S i)%nat → window_at w (drop d xs) i = window_at w xs (d + i).
Proof.
  intros Hw. unfold window_at.
  rewrite take_drop_commute, drop_drop.
  f_equal; [lia | f_equal; lia].
Qed.

(** A NaN in a window that is not longer than [minp] leaves no mean. *)
Lemma window_mean_nan minp (win : list Cell) :
  None ∈ win → (length win ≤ minp)%nat → window_mean minp win = None.
Proof.
  intros Hin Hlen. destruct (window_mean minp win) as [q|] eqn:Hq; [|done].
  exfalso. unfold window_mean in Hq. cbv zeta in Hq.
  assert (length (omap id win) < length win)%nat as Hlt.
  { clear Hq Hlen. induction win as [|[a|] win IH]; csimpl.
    - by apply elem_of_nil in Hin.
    - apply elem_of_cons in Hin as [|Hin]; [done|]. specialize (IH Hin). lia.
    - pose proof (omap_id_length win). lia. }
  destruct (Nat.leb_spec minp (length (omap id win))); [lia | done].
Qed.

Lemma window_at_elem w xs i j c :
  xs !! j = Some c → (S i - w ≤ j ≤ i)%nat → c ∈ window_at w xs i.
Proof.
  intros Hj Hr. unfold window_at. apply list_elem_of_lookup.
  exists (j - (S i - w))%nat. rewrite lookup_drop, lookup_take_lt by lia.
  by replace (S i - w + (j - (S i - w)))%nat with j by lia.
Qed.
End trailing_rows.

(** Over the exact means of [rolling_mean], where each average is
    computed from its own window alone, the rows before the last
    [long_window + 1] do not count.  (This is a fact of the exact means,
    used below to build a series of a given length; a running sum that is
    carried along the column and rounded need not have it.) *)
Lemma generate_signal_last_rows sw lw g df close :
  init sw lw = inr g →
  df_wf df → df_columns df !! "close" = Some close →
  lw + 1 ≤ Z.of_nat (length close) →
  generate_signal g (PyDataFrame df)
  = generate_signal g
      (PyDataFrame (close_frame (drop (length close - Z.to_nat (lw + 1)) close))).
Proof.
  unfold init. destruct (Z.geb_spec sw lw) as [|Hlt]; [done|].
  intros [= <-] Hwf Hc Hlen.
  destruct (decide (sw < 0)) as [Hneg|Hsw].
  { by rewrite !negative_window_hold by (simpl; lia). }
  set (d := (length close - Z.to_nat (lw + 1))%nat).
  assert (length (drop d close) = S (S (Z.to_nat lw - 1))) as Hdl
    by (rewrite length_drop; lia).
  assert (length close = S (S (d + (Z.to_nat lw - 1)))) as Hcl by lia.
  rewrite (generate_signal_trailing _ df close (d + (Z.to_nat lw - 1)));
    [| done | done | done | simpl; lia..].
  rewrite (generate_signal_trailing _ (close_frame (drop d close)) (drop d close)
             (Z.to_nat lw - 1));
    [| apply close_frame_wf | apply close_frame_lookup | done | simpl; lia..].
  simpl.
  rewrite !window_at_drop by lia.
  by replace (d + S (Z.to_nat lw - 1))%nat with (S (d + (Z.to_nat lw - 1))) by lia.
Qed.

(** X4.  A NaN among the last [long_window + 1] closes forces HOLD. *)
Theorem nan_close_hold g df close i :
  df_wf df → df_columns df !! "close" = Some close →
  close !! i = Some None →
  Z.of_nat (length close) ≤ Z.of_nat i + long_window g + 1 →
  generate_signal g (PyDataFrame df) = inr HOLD.
Proof.
  intros Hwf Hc Hi Hlast.
  pose proof (lookup_lt_Some _ _ _ Hi) as Hlt.
  pose proof (wf_close_length _ _ Hwf Hc) as Hidx.
  destruct (decide (Z.of_nat (length close) ≤ long_window g)) as [Hshort|Hlong].
  { apply short_history_hold; [done | lia]. }
  destruct (decide (short_window g < 0)) as [Hneg|Hsw].
  { apply negative_window_hold. by left. }
  destruct (decide (long_window g ≤ 0)) as [Hlw|Hlw].
  { destruct (decide (long_window g = 0));
      [apply zero_window_hold; by right | apply negative_window_hold; lia]. }
  destruct (length close) as [|[|n]] eqn:Hlen; [lia | lia |].
  rewrite (generate_signal_trailing g df close n); [| done | done | lia..].
  simpl.
  set (w := Z.to_nat (long_window g)).
  destruct (decide (i = S n - w)%nat) as [Hprev|Hcur].
  - assert (window_mean w (window_at w close n) = None) as ->.
    { apply window_mean_nan.
      - apply (window_at_elem _ _ _ i); [done | lia].
      - unfold window_at. rewrite length_drop, length_take. lia. }
    simpl. by rewrite !orb_true_r.
  - assert (window_mean w (window_at w close (S n)) = None) as ->.
    { apply window_mean_nan.
      - apply (window_at_elem _ _ _ i); [done | lia].
      - unfold window_at. rewrite length_drop, length_take. lia. }
    simpl. by rewrite !orb_true_r.
Qed.

Lemma nan_close_hold_witness :
  generate_signal mavg_3_5
    (PyDataFrame (close_frame (prices [20; 19; 18] ++ [None]
                               ++ prices [16; 15; 18; 22; 23])))
  = inr HOLD.
Proof.
  apply (nan_close_hold mavg_3_5 _
           (prices [20; 19; 18] ++ [None] ++ prices [16; 15; 18; 22; 23]) 3).
  - apply close_frame_wf.
  - apply close_frame_lookup.
  - reflexivity.
  - simpl. lia.
Defined.

(** X5.  [__init__] only compares the two windows: it accepts a short
    window of zero or less, and the generator it builds then answers HOLD
    to every input. *)
Theorem nonpositive_short_window sw lw :
  sw ≤ 0 → sw < lw →
  ∃ g, init sw lw = inr g ∧ ∀ v, generate_signal g v = inr HOLD.
Proof.
  intros Hsw Hlt. unfold init. destruct (Z.geb_spec sw lw) as [|_]; [lia|].
  eexists. split; [done|]. intros v.
  destruct (decide (sw = 0)) as [->|Hne].
  - apply zero_window_hold. by left.
  - apply negative_window_hold. simpl. lia.
Qed.

Lemma nonpositive_short_window_witness :
  ∃ g, init 0 5 = inr g ∧ ∀ v, generate_signal g v = inr HOLD.
Proof. apply (nonpositive_short_window 0 5); lia. Defined.

Section mirror.
Implicit Types (g : MovingAverageCrossoverSignalGenerator) (xs s : list Cell).















Lemma generate_signal_close_frame g xs :
  generate_signal g (PyDataFrame (close_frame xs))
  = if (length xs =? 0)%nat then inr HOLD
    else if Z.of_nat (length xs) <? long_window g then inr HOLD
    else match rolling_mean (short_window g) xs, rolling_mean (long_window g) xs with
         | inr s, inr l => if nan_guard s l then inr HOLD else read_and_decide s l
         | _, _ => inr HOLD
         end.
Proof.
  unfold generate_signal, df_empty. rewrite close_frame_lookup.
  unfold close_frame at 1 2. simpl. rewrite map_size_singleton. simpl.
  rewrite orb_false_r.
  destruct (length xs =? 0)%nat; [done|].
  destruct (Z.of_nat (length xs) <? long_window g); [done|].
  destruct (rolling_mean (short_window g) xs) as [|s]; [done|].
  by destruct (rolling_mean (long_window g) xs) as [|l].
Qed.
End mirror.


(** * Further properties of [execute_trade] *)

(** X7.  [execute_trade] returns for every engine, signal and gateway
    answer, and an order result it returns is one the gateway returned
    to a BUY or a SELL: it makes up no result of its own. *)
Theorem execute_trade_result self symbol signal quantity w :
  ∃ r, (execute_trade self symbol signal quantity w).1 = inr r
       ∧ ∀ order, r = Some order →
           ∃ ex, exchange_handler self ≫= exchange = Some ex
                 ∧ ((signal = "BUY"
                     ∧ create_market_buy_order ex symbol quantity = inr (Some order))
                    ∨ (signal = "SELL"
                       ∧ create_market_sell_order ex symbol quantity
                         = inr (Some order))).
Proof.
  destruct (exchange_handler self ≫= exchange) as [ex|] eqn:Hex.
  - destruct (decide (signal = "BUY")) as [->|HB].
    { rewrite (execute_trade_BUY _ ex) by done.
      destruct (create_market_buy_order ex symbol quantity) as [e|r] eqn:Hr; simpl.
      - by exists None.
      - exists r. split; [done|]. intros order ->. exists ex. eauto. }
    destruct (decide (signal = "SELL")) as [->|HS].
    { rewrite (execute_trade_SELL _ ex) by done.
      destruct (create_market_sell_order ex symbol quantity) as [e|r] eqn:Hr; simpl.
      - by exists None.
      - exists r. split; [done|]. intros order ->. exists ex. eauto. }
    exists None. split; [|done]. by apply execute_trade_no_request.
  - rewrite execute_trade_not_initialized by done. by exists None.
Qed.

Lemma execute_trade_result_witness :
  ∃ r, (execute_trade trading_engine "BTC/USDT" "BUY" (1 # 100) world0).1 = inr r
       ∧ ∀ order, r = Some order →
           ∃ ex, exchange_handler trading_engine ≫= exchange = Some ex
                 ∧ (("BUY" = "BUY"
                     ∧ create_market_buy_order ex "BTC/USDT" (1 # 100)
                       = inr (Some order))
                    ∨ ("BUY" = "SELL"
                       ∧ create_market_sell_order ex "BTC/USDT" (1 # 100)
                         = inr (Some order))).
Proof. exact (execute_trade_result trading_engine "BTC/USDT" "BUY" (1 # 100) world0). Defined.

(** X8.  One call of [execute_trade] makes at most one gateway request,
    a buy or a sell of exactly the symbol and the quantity it was given;
    it keeps the requests and the log records made before, and writes at
    least one log record. *)
Theorem one_request_at_most self symbol signal quantity w :
  ∃ requests records,
    gateway_calls (execute_trade self symbol signal quantity w).2
    = gateway_calls w ++ requests
    ∧ log_records (execute_trade self symbol signal quantity w).2
      = log_records w ++ records
    ∧ (requests = [] ∨ requests = [MarketBuy symbol quantity]
       ∨ requests = [MarketSell symbol quantity])
    ∧ records ≠ [].
Proof.
  destruct (exchange_handler self ≫= exchange) as [ex|] eqn:Hex.
  - destruct (decide (signal = "BUY")) as [->|HB].
    { rewrite (execute_trade_BUY _ ex) by done.
      destruct (create_market_buy_order ex symbol quantity); simpl;
        eexists _, _; (split; [done|]); (split; [done|]); split; eauto. }
    destruct (decide (signal = "SELL")) as [->|HS].
    { rewrite (execute_trade_SELL _ ex) by done.
      destruct (create_market_sell_order ex symbol quantity); simpl;
        eexists _, _; (split; [done|]); (split; [done|]); split; eauto. }
    destruct (decide (signal = "HOLD")) as [->|HH].
    + rewrite (execute_trade_HOLD _ ex) by done. simpl.
      exists [], [(INFO, SignalIsHold symbol)]. by rewrite app_nil_r; eauto.
    + rewrite (execute_trade_invalid _ ex) by done. simpl.
      exists [], [(WARNING, InvalidSignal signal symbol)].
      by rewrite app_nil_r; eauto.
  - rewrite execute_trade_not_initialized by done. simpl.
    exists [], [(ERROR, NotInitialized)]. by rewrite app_nil_r; eauto.
Qed.

(** X9.  An engine without a gateway (no exchange handler, or a handler
    whose exchange is [None]) attempts no order whatever the signal, BUY
    and SELL included: it logs one error and returns [None]. *)
Theorem no_gateway_no_order self symbol signal quantity w :
  exchange_handler self = None
  ∨ (∃ handler, exchange_handler self = Some handler ∧ exchange handler = None) →
  execute_trade self symbol signal quantity w
  = (inr None, {| gateway_calls := gateway_calls w;
                  log_records := log_records w ++ [(ERROR, NotInitialized)] |}).
Proof.
  intros Hno. apply execute_trade_not_initialized.
  destruct Hno as [-> | (handler & -> & Hex)]; [done|]. simpl. by rewrite Hex.
Qed.

Lemma no_gateway_no_order_witness :
  execute_trade (TradingEngine_init None None) "BTC/USDT" "BUY" (1 # 100) world0
  = (inr None, {| gateway_calls := [];
                  log_records := [(ERROR, NotInitialized)] |})
  ∧ execute_trade (TradingEngine_init (Some {| exchange := None |}) None)
      "BTC/USDT" "BUY" (1 # 100) world0
    = (inr None, {| gateway_calls := [];
                    log_records := [(ERROR, NotInitialized)] |}).
Proof.
  split.
  - apply (no_gateway_no_order (TradingEngine_init None None)). by left.
  - apply (no_gateway_no_order (TradingEngine_init (Some {| exchange := None |}) None)).
    right. by eexists.
Defined.

(** X10.  A verdict of [generate_signal] is always a signal that
    [execute_trade] knows: handed to an engine with a gateway, it makes
    one buy request for BUY, one sell request for SELL and none for HOLD,
    and it never takes the invalid-signal branch. *)
Theorem verdict_is_dispatched g v self ex symbol quantity w :
  exchange_handler self ≫= exchange = Some ex →
  ∃ signal records,
    generate_signal g v = inr signal
    ∧ gateway_calls (execute_trade self symbol signal quantity w).2
      = gateway_calls w
        ++ (if String.eqb signal BUY then [MarketBuy symbol quantity]
            else if String.eqb signal SELL then [MarketSell symbol quantity]
            else [])
    ∧ log_records (execute_trade self symbol signal quantity w).2
      = log_records w ++ records
    ∧ Forall (λ record, record.1 ≠ WARNING) records.
Proof.
  intros Hex. destruct (generate_signal_signals g v) as (signal & Hs & Hin).
  exists signal.
  assert (signal = BUY ∨ signal = SELL ∨ signal = HOLD) as [-> | [-> | ->]]
    by (rewrite !elem_of_cons, elem_of_nil in Hin; tauto).
  - rewrite (execute_trade_BUY _ ex) by done.
    destruct (create_market_buy_order ex symbol quantity); simpl;
      eexists; repeat split; try done; by repeat constructor.
  - rewrite (execute_trade_SELL _ ex) by done.
    destruct (create_market_sell_order ex symbol quantity); simpl;
      eexists; repeat split; try done; by repeat constructor.
  - rewrite (execute_trade_HOLD _ ex) by done. simpl.
    exists [(INFO, SignalIsHold symbol)].
    split; [done|]. split; [by rewrite app_nil_r|]. split; [done|].
    by repeat constructor.
Qed.

Lemma verdict_is_dispatched_witness :
  ∃ signal records,
    generate_signal mavg_3_5 (PyDataFrame (close_frame (take 8 bullish_closes)))
    = inr signal
    ∧ gateway_calls (execute_trade trading_engine "BTC/USDT" signal (1 # 100) world0).2
      = gateway_calls world0
        ++ (if String.eqb signal BUY then [MarketBuy "BTC/USDT" (1 # 100)]
            else if String.eqb signal SELL then [MarketSell "BTC/USDT" (1 # 100)]
            else [])
    ∧ log_records (execute_trade trading_engine "BTC/USDT" signal (1 # 100) world0).2
      = log_records world0 ++ records
    ∧ Forall (λ record, record.1 ≠ WARNING) records.
Proof.
  apply (verdict_is_dispatched mavg_3_5 _ trading_engine MockCCXTExchange).
  reflexivity.
Defined.

(** * The callers in [main.py] *)

(** X11.  [handle_get_signal] asks for at least [long_window + 1] candles
    whatever the window, which is the least number of rows at which a
    verdict other than HOLD exists; for a generator with
    [1 <= short_window < long_window] some series of exactly that many
    candles gets the verdict BUY. *)
Theorem data_limit_enough :
  (∀ long_window, long_window + 1 ≤ data_limit "ma_crossover" long_window)
  ∧ (∀ sw lw g,
       init sw lw = inr g → 1 ≤ sw →
       ∃ closes : list Cell,
         Z.of_nat (length closes) = data_limit "ma_crossover" lw
         ∧ generate_signal g (PyDataFrame (close_frame closes)) = inr BUY).
Proof.
  split.
  { intros lw. unfold data_limit. simpl.
    destruct (Z.ltb_spec (lw * 2) (lw + 1)); lia. }
  intros sw lw g Hinit Hsw.
  assert (sw < lw) as Hlt
    by (unfold init in Hinit; by destruct (Z.geb_spec sw lw)).
  assert (data_limit "ma_crossover" lw = lw * 2) as ->.
  { unfold data_limit. simpl. by destruct (Z.ltb_spec (lw * 2) (lw + 1)); [lia|]. }
  set (n := Z.to_nat lw).
  exists (Some <$> (replicate (n - 1) 0%Q ++ replicate n 0%Q ++ [1%Q])).
  assert (length (Some <$> (replicate (n - 1) 0%Q ++ replicate n 0%Q ++ [1%Q]))
          = (n - 1 + (n + 1))%nat) as Hlen
    by (by rewrite length_fmap, !length_app, !length_replicate).
  split; [lia|].
  rewrite (generate_signal_last_rows sw lw g _ _ Hinit (close_frame_wf _)
             (close_frame_lookup _)) by lia.
  rewrite Hlen. replace (n - 1 + (n + 1) - Z.to_nat (lw + 1))%nat with (n - 1)%nat by lia.
  rewrite <- fmap_drop, drop_app_length' by (by rewrite length_replicate).
  unfold init in Hinit. destruct (Z.geb_spec sw lw); [done|].
  injection Hinit as <-.
  rewrite <- (Z2Nat.id sw), <- (Z2Nat.id lw) at 1 by lia.
  apply rise_is_BUY. lia.
Qed.

Lemma data_limit_enough_witness :
  ∃ closes : list Cell,
    Z.of_nat (length closes) = data_limit "ma_crossover" 5
    ∧ generate_signal mavg_3_5 (PyDataFrame (close_frame closes)) = inr BUY.
Proof.
  apply (proj2 data_limit_enough 3 5 mavg_3_5); [reflexivity | lia].
Defined.

Example safe_filename_f :
  _make_safe_filename ascii_only "ETH/USDT:USDT" = "ETH_USDT_USDT"
  ∧ os_path_join "data" (csv_filename ascii_only "mock_exchange" "BTC/USDT" "1h")
    = "data/mock_exchange_BTC_USDT_1h.csv".
Proof. split; reflexivity. Qed.

(** * [DataFetcher] *)

Section safe_filename.
Variable unicode_isalnum : ascii → bool.
Local Abbreviation sanitize :=
  (λ c : ascii, if isalnum unicode_isalnum c then c else "_"%char).

Lemma isalnum_underscore : isalnum unicode_isalnum "_" = false.
Proof. reflexivity. Qed.

Lemma sanitize_idem c : sanitize (sanitize c) = sanitize c.
Proof.
  simpl. destruct (isalnum unicode_isalnum c) eqn:Hc; [by rewrite Hc|].
  by rewrite isalnum_underscore.
Qed.

Lemma sanitize_fixed c :
  sanitize c = c ↔ isalnum unicode_isalnum c = true ∨ c = "_"%char.
Proof.
  simpl. destruct (isalnum unicode_isalnum c) eqn:Hc; split; eauto.
  by intros [|<-].
Qed.

Lemma str_map_length f s : String.length (str_map f s) = String.length s.
Proof. induction s as [|c s IH]; simpl; by rewrite ?IH. Qed.

Lemma str_map_chars f s :
  String.list_ascii_of_string (str_map f s) = f <$> String.list_ascii_of_string s.
Proof. induction s as [|c s IH]; simpl; by rewrite ?IH. Qed.

Lemma str_map_fixed f s :
  str_map f s = s ↔ ∀ c, In c (String.list_ascii_of_string s) → f c = c.
Proof.
  induction s as [|c s IH]; simpl; [done|]. split.
  - intros [= Hc Hs] c' [<- | Hin]; [done|]. by apply IH.
  - intros Hall. f_equal; [by apply Hall; left|]. apply IH. intros c' Hin.
    apply Hall. by right.
Qed.
End safe_filename.

(** X12.  [_make_safe_filename] keeps the length of the symbol, returns
    only characters that are alphanumeric or the underscore (so no path
    separator, no dot and no colon), changes nothing in a symbol made of
    such characters only, and applied twice gives what it gives once. *)
Theorem make_safe_filename_safe unicode_isalnum symbol :
  let safe := _make_safe_filename unicode_isalnum in
  String.length (safe symbol) = String.length symbol
  ∧ (∀ c, In c (String.list_ascii_of_string (safe symbol)) →
          isalnum unicode_isalnum c = true ∨ c = "_"%char)
  ∧ (∀ c, In c ["/"; "\"; "."; ":"; " "]%char →
          ¬ In c (String.list_ascii_of_string (safe symbol)))
  ∧ (safe symbol = symbol
     ↔ ∀ c, In c (String.list_ascii_of_string symbol) →
            isalnum unicode_isalnum c = true ∨ c = "_"%char)
  ∧ safe (safe symbol) = safe symbol.
Proof.
  intros safe.
  assert (∀ c, In c (String.list_ascii_of_string (safe symbol)) →
               isalnum unicode_isalnum c = true ∨ c = "_"%char) as Hchars.
  { intros c. unfold safe, _make_safe_filename. rewrite str_map_chars.
    intros (c0 & <- & _)%in_map_iff.
    apply (sanitize_fixed unicode_isalnum). apply sanitize_idem. }
  split; [apply str_map_length|]. split; [done|]. split; [|split].
  - intros c Hc Hin. apply Hchars in Hin.
    simpl in Hc. destruct Hc as [<- | [<- | [<- | [<- | [<- | []]]]]];
      by destruct Hin.
  - unfold safe, _make_safe_filename. rewrite str_map_fixed.
    split; intros Hall c Hin; by apply (sanitize_fixed unicode_isalnum), Hall.
  - unfold safe, _make_safe_filename. apply str_map_fixed.
    intros c. rewrite str_map_chars. intros (c0 & <- & _)%in_map_iff.
    apply sanitize_idem.
Qed.

Lemma make_safe_filename_safe_witness :
  _make_safe_filename ascii_only "BTC_USDT" = "BTC_USDT"
  ∧ ¬ In "/"%char (String.list_ascii_of_string (_make_safe_filename ascii_only "../etc")).
Proof.
  split.
  - apply (proj1 (proj2 (proj2 (proj2
             (make_safe_filename_safe ascii_only "BTC_USDT"))))).
    simpl. intros c Hc.
    repeat (destruct Hc as [<- | Hc]; [by (left + right)|]). done.
  - apply (proj1 (proj2 (proj2 (make_safe_filename_safe ascii_only "../etc")))).
    simpl. by left.
Defined.

(** X13.  The file name does not tell a symbol from its sanitized form:
    both get the same CSV file, so a symbol with a character that is
    neither alphanumeric nor the underscore shares its file with another
    symbol. *)
Theorem sanitized_symbols_collide unicode_isalnum exchange_id symbol timeframe :
  let safe := _make_safe_filename unicode_isalnum in
  csv_filename unicode_isalnum exchange_id (safe symbol) timeframe
  = csv_filename unicode_isalnum exchange_id symbol timeframe
  ∧ ((∃ c, In c (String.list_ascii_of_string symbol)
           ∧ isalnum unicode_isalnum c = false ∧ c ≠ "_"%char) →
     safe symbol ≠ symbol).
Proof.
  intros safe. split.
  - unfold csv_filename. f_equal. f_equal. f_equal.
    unfold _make_safe_filename. apply str_map_fixed.
    intros c. rewrite str_map_chars. intros (c0 & <- & _)%in_map_iff.
    apply sanitize_idem.
  - intros (c & Hin & Hc & Hne) Heq.
    unfold safe, _make_safe_filename in Heq. rewrite str_map_fixed in Heq.
    specialize (Heq c Hin). simpl in Heq. rewrite Hc in Heq. by apply Hne.
Qed.

Lemma sanitized_symbols_collide_witness :
  csv_filename ascii_only "mock_exchange" "BTC_USDT" "1h"
  = csv_filename ascii_only "mock_exchange" "BTC/USDT" "1h"
  ∧ "BTC_USDT" ≠ "BTC/USDT".
Proof.
  pose proof (sanitized_symbols_collide ascii_only "mock_exchange" "BTC/USDT" "1h")
    as [Hsame Hdiff].
  split; [exact Hsame|].
  apply Hdiff. exists "/"%char. simpl. split; [by right; right; right; left|].
  split; [reflexivity | discriminate].
Defined.

Section fetch.
Variable unicode_isalnum : ascii → bool.
Variable to_datetime : list Cell → Exn + list Cell.
Variable fs : FileSystem.
Implicit Types (self : DataFetcher) (ex : OhlcvExchange) (ohlcv : list Candle)
               (symbol timeframe : string) (since : option Z) (limit : Z)
               (output_dir : option string).

Local Abbreviation fetch := (fetch_historical_ohlcv unicode_isalnum to_datetime fs).

Lemma ohlcv_frame_close ohlcv timestamp :
  df_columns (df_set_column (ohlcv_frame ohlcv) "timestamp" timestamp) !! "close"
  = Some (candle_close <$> ohlcv).
Proof.
  unfold df_set_column, ohlcv_frame. simpl.
  rewrite !lookup_insert_ne by done. apply lookup_insert_eq.
Qed.

Lemma ohlcv_frame_wf ohlcv timestamp :
  length timestamp = length ohlcv →
  df_wf (df_set_column (ohlcv_frame ohlcv) "timestamp" timestamp).
Proof.
  intros Hlen. unfold df_wf, df_set_column, ohlcv_frame. simpl.
  repeat (apply map_Forall_insert_2; [by rewrite ?length_fmap|]).
  apply map_Forall_empty.
Qed.

Lemma ohlcv_frame_not_empty c ohlcv :
  df_empty (ohlcv_frame (c :: ohlcv)) = false.
Proof.
  apply (df_not_empty _ (candle_close <$> (c :: ohlcv))); [|simpl; lia].
  unfold ohlcv_frame. simpl.
  rewrite !lookup_insert_ne by done. apply lookup_insert_eq.
Qed.

(** With no exchange, with an exchange that raises, and with an exchange
    that has no candle, nothing but the request happens. *)
Lemma fetch_no_data self symbol timeframe since limit output_dir :
  match fetcher_exchange_handler self ≫= ohlcv_exchange with
  | None => fetch self symbol timeframe since limit output_dir = ([], inr None)
  | Some ex =>
      match fetch_ohlcv ex symbol timeframe since limit with
      | inl _ =>
          fetch self symbol timeframe since limit output_dir
          = ([FetchOhlcv symbol timeframe since limit], inr None)
      | inr None | inr (Some []) =>
          fetch self symbol timeframe since limit output_dir
          = ([FetchOhlcv symbol timeframe since limit], inr (Some empty_frame))
      | inr (Some (_ :: _)) => True
      end
  end.
Proof.
  unfold fetch_historical_ohlcv.
  destruct (fetcher_exchange_handler self ≫= ohlcv_exchange) as [ex|]; [|done].
  by destruct (fetch_ohlcv ex symbol timeframe since limit) as [|[[|c ohlcv]|]].
Qed.

(** With candles, the frame is built and, with an output directory,
    saved. *)
Lemma fetch_with_data self ex c ohlcv symbol timeframe since limit output_dir :
  fetcher_exchange_handler self ≫= ohlcv_exchange = Some ex →
  fetch_ohlcv ex symbol timeframe since limit = inr (Some (c :: ohlcv)) →
  fetch self symbol timeframe since limit output_dir
  = let fetched := [FetchOhlcv symbol timeframe since limit] in
    match to_datetime (candle_timestamp <$> c :: ohlcv) with
    | inl e => (fetched, inl e)
    | inr timestamp =>
        let df := df_set_column (ohlcv_frame (c :: ohlcv)) "timestamp" timestamp in
        match output_dir with
        | None => (fetched, inr (Some df))
        | Some dir =>
            let filepath :=
              os_path_join dir
                (csv_filename unicode_isalnum (ccxt_id ex) symbol timeframe) in
            match makedirs fs dir with
            | Some (OSError _) => (fetched ++ [Makedirs dir], inr None)
            | Some (NotOSError e) => (fetched ++ [Makedirs dir], inl e)
            | None =>
                (fetched ++ [Makedirs dir; ToCsv filepath df],
                 match to_csv fs filepath df with
                 | Some (OSError _) => inr None
                 | Some (NotOSError e) => inl e
                 | None => inr (Some df)
                 end)
            end
        end
    end.
Proof.
  intros Hex Hfetch. unfold fetch_historical_ohlcv.
  rewrite Hex, Hfetch, ohlcv_frame_not_empty. cbv zeta.
  destruct (to_datetime _) as [|timestamp]; [done|].
  destruct output_dir as [dir|]; [|done].
  destruct (makedirs fs dir) as [[]|]; [done | done |].
  by destruct (to_csv fs _ _) as [[]|].
Qed.
End fetch.

(** The verdict on a well-formed frame is the verdict on its [close]
    column alone. *)
Lemma generate_signal_close_column g df close :
  df_wf df → df_columns df !! "close" = Some close →
  generate_signal g (PyDataFrame df)
  = generate_signal g (PyDataFrame (close_frame close)).
Proof.
  intros Hwf Hc. pose proof (wf_close_length _ _ Hwf Hc) as Hlen.
  rewrite generate_signal_close_frame. unfold generate_signal.
  rewrite Hc, <- Hlen.
  destruct (Nat.eqb_spec (length close) 0) as [Hz|Hnz].
  - unfold df_empty. rewrite <- Hlen, Hz. done.
  - rewrite (df_not_empty df close) by (done || lia).
    destruct (Z.of_nat (length close) <? long_window g); [done|].
    destruct (rolling_mean (short_window g) close) as [|s]; [done|].
    by destruct (rolling_mean (long_window g) close) as [|l].
Qed.

(** X14.  [fetch_historical_ohlcv] asks the exchange at most once, and
    touches the file system exactly when the exchange answered with at
    least one candle, the timestamps were converted and an output
    directory was given.  Without an exchange nothing happens; with no
    candle (the exchange raised, returned [None] or returned an empty
    list), with a failed conversion or with [output_dir=None], the request
    is all that happens.  Otherwise the directory is made and, if that
    succeeded, one CSV file is written, at
    [output_dir/<exchange id>_<sanitized symbol>_<timeframe>.csv], and
    what is written is the frame built from the candles that came back
    with its converted timestamps; the frame is returned when the write
    succeeded, and no other frame is returned after a write. *)
Theorem fetch_file_discipline unicode_isalnum to_datetime fs self symbol
    timeframe since limit output_dir :
  let out := fetch_historical_ohlcv unicode_isalnum to_datetime fs self symbol
               timeframe since limit output_dir in
  let request := FetchOhlcv symbol timeframe since limit in
  fetcher_exchange_handler self ≫= ohlcv_exchange = None
  ∧ out = ([], inr None)
  ∨ ∃ ex,
      fetcher_exchange_handler self ≫= ohlcv_exchange = Some ex
      ∧ (out.1 = [request]
         ∧ ((∀ c ohlcv,
               fetch_ohlcv ex symbol timeframe since limit
               ≠ inr (Some (c :: ohlcv)))
            ∨ (∃ c ohlcv e,
                 fetch_ohlcv ex symbol timeframe since limit
                 = inr (Some (c :: ohlcv))
                 ∧ to_datetime (candle_timestamp <$> c :: ohlcv) = inl e)
            ∨ output_dir = None)
         ∨ ∃ c ohlcv timestamp dir,
             fetch_ohlcv ex symbol timeframe since limit = inr (Some (c :: ohlcv))
             ∧ to_datetime (candle_timestamp <$> c :: ohlcv) = inr timestamp
             ∧ output_dir = Some dir
             ∧ let df := df_set_column (ohlcv_frame (c :: ohlcv)) "timestamp"
                                       timestamp in
               let filepath :=
                 os_path_join dir
                   (csv_filename unicode_isalnum (ccxt_id ex) symbol timeframe) in
               makedirs fs dir ≠ None ∧ out.1 = [request; Makedirs dir]
               ∨ makedirs fs dir = None
                 ∧ out.1 = [request; Makedirs dir; ToCsv filepath df]
                 ∧ df_index_len df ≠ 0%nat
                 ∧ (to_csv fs filepath df = None → out.2 = inr (Some df))
                 ∧ ∀ r, out.2 = inr (Some r) → r = df).
Proof.
  intros out request. subst out request.
  pose proof (fetch_no_data unicode_isalnum to_datetime fs self symbol timeframe
                since limit output_dir) as Hno.
  destruct (fetcher_exchange_handler self ≫= ohlcv_exchange) as [ex|] eqn:Hex;
    [|by left].
  right. exists ex. split; [done|].
  destruct (fetch_ohlcv ex symbol timeframe since limit)
    as [|[[|c ohlcv]|]] eqn:Hfetch;
    try (rewrite Hno; left; split; [done|]; by left).
  rewrite (fetch_with_data _ _ _ _ ex c ohlcv) by done. cbv zeta.
  destruct (to_datetime _) as [e|timestamp] eqn:Hts.
  { left. split; [done|]. right; left. by exists c, ohlcv, e. }
  destruct output_dir as [dir|]; [|left; split; [done|]; by right; right].
  right. exists c, ohlcv, timestamp, dir. do 3 (split; [done|]).
  destruct (makedirs fs dir) as [[]|] eqn:Hmk; [by left | by left |].
  right. split; [done|]. split; [done|]. split; [done|]. simpl. split.
  - by intros ->.
  - intros r. by destruct (to_csv fs _ _) as [[]|]; intros [= <-].
Qed.

Example fetch_and_save_f :
  fetch_historical_ohlcv ascii_only inr fs_ok data_fetcher "BTC/USDT" "1h" None 1
    (Some "data")
  = ([FetchOhlcv "BTC/USDT" "1h" None 1; Makedirs "data";
      ToCsv "data/mock_exchange_BTC_USDT_1h.csv"
        (df_set_column (ohlcv_frame [mock_candle]) "timestamp"
           [Some 1672531200000%Q])],
     inr (Some (df_set_column (ohlcv_frame [mock_candle]) "timestamp"
                  [Some 1672531200000%Q]))).
Proof. vm_compute. reflexivity. Qed.

(** X15.  [fetch_historical_ohlcv] returns [None] in exactly three
    situations: the fetcher has no exchange, the exchange raised, or
    candles were fetched and saving them failed with an [OSError] (from
    making the directory or from writing the file), in which case the
    fetched data is not returned either. *)
Theorem fetch_none_iff unicode_isalnum to_datetime fs self symbol timeframe
    since limit output_dir :
  (fetch_historical_ohlcv unicode_isalnum to_datetime fs self symbol timeframe
     since limit output_dir).2 = inr None
  ↔ fetcher_exchange_handler self ≫= ohlcv_exchange = None
    ∨ ∃ ex,
        fetcher_exchange_handler self ≫= ohlcv_exchange = Some ex
        ∧ ((∃ e, fetch_ohlcv ex symbol timeframe since limit = inl e)
           ∨ ∃ c ohlcv timestamp dir msg,
               fetch_ohlcv ex symbol timeframe since limit = inr (Some (c :: ohlcv))
               ∧ to_datetime (candle_timestamp <$> c :: ohlcv) = inr timestamp
               ∧ output_dir = Some dir
               ∧ (makedirs fs dir = Some (OSError msg)
                  ∨ makedirs fs dir = None
                    ∧ to_csv fs
                        (os_path_join dir
                           (csv_filename unicode_isalnum (ccxt_id ex) symbol
                                         timeframe))
                        (df_set_column (ohlcv_frame (c :: ohlcv)) "timestamp"
                                       timestamp)
                      = Some (OSError msg))).
Proof.
  pose proof (fetch_no_data unicode_isalnum to_datetime fs self symbol timeframe
                since limit output_dir) as Hno.
  destruct (fetcher_exchange_handler self ≫= ohlcv_exchange) as [ex|] eqn:Hex.
  2:{ rewrite Hno. split; [by left | done]. }
  destruct (fetch_ohlcv ex symbol timeframe since limit)
    as [e|[[|c ohlcv]|]] eqn:Hfetch.
  - rewrite Hno. split; [|done]. intros _. right. exists ex. split; [done|].
    left. by exists e.
  - rewrite Hno. split; [done|].
    intros [|(ex' & [= <-] & [[e He] | (c & ohlcv & ts & dir & msg & He & _)])];
      congruence.
  - rewrite (fetch_with_data _ _ _ _ ex c ohlcv) by done. cbv zeta.
    split.
    + intros Hnone. right. exists ex. split; [done|]. right.
      destruct (to_datetime _) as [|timestamp] eqn:Htd; [done|].
      destruct output_dir as [dir|]; [|done].
      destruct (makedirs fs dir) as [[msg|]|] eqn:Hmk; [ | done | ].
      * exists c, ohlcv, timestamp, dir, msg. eauto.
      * simpl in Hnone.
        destruct (to_csv fs _ _) as [[msg|]|] eqn:Hcsv; [ | done | done].
        exists c, ohlcv, timestamp, dir, msg. eauto 10.
    + intros [|(ex' & [= <-] & [[e He] | Hsave])]; [done | congruence |].
      destruct Hsave as (c' & ohlcv' & ts & dir & msg & He & Htd & -> & Hfs).
      rewrite Hfetch in He. injection He as <- <-. rewrite Htd.
      destruct Hfs as [-> | [-> ->]]; done.
  - rewrite Hno. split; [done|].
    intros [|(ex' & [= <-] & [[e He] | (c & ohlcv & ts & dir & msg & He & _)])];
      congruence.
Qed.

(** X16.  What [fetch_historical_ohlcv] returns can be handed to
    [generate_signal] as it is: [None] gets HOLD, and a frame (which is
    well formed, with one row for each candle) gets the verdict of the
    crossover rule on the candles' closes, in the order the exchange gave
    them.  [to_datetime] is taken to keep the length of the column. *)
Theorem fetched_frame_verdict unicode_isalnum to_datetime fs self symbol
    timeframe since limit output_dir g r :
  (∀ column converted,
     to_datetime column = inr converted → length converted = length column) →
  (fetch_historical_ohlcv unicode_isalnum to_datetime fs self symbol timeframe
     since limit output_dir).2 = inr r →
  let closes :=
    match fetcher_exchange_handler self ≫= ohlcv_exchange with
    | Some ex =>
        match fetch_ohlcv ex symbol timeframe since limit with
        | inr (Some ohlcv) => candle_close <$> ohlcv
        | _ => []
        end
    | None => []
    end in
  (∀ df, r = Some df → df_wf df ∧ df_index_len df = length closes)
  ∧ generate_signal g (fetched_value r)
    = match r with
      | None => inr HOLD
      | Some _ => generate_signal g (PyDataFrame (close_frame closes))
      end.
Proof.
  intros Hlen.
  pose proof (fetch_no_data unicode_isalnum to_datetime fs self symbol timeframe
                since limit output_dir) as Hno.
  assert (df_wf empty_frame) as Hwf0 by apply map_Forall_empty.
  destruct (fetcher_exchange_handler self ≫= ohlcv_exchange) as [ex|] eqn:Hex.
  2:{ rewrite Hno. intros [= <-]. by split. }
  destruct (fetch_ohlcv ex symbol timeframe since limit)
    as [e|[[|c ohlcv]|]] eqn:Hfetch.
  - rewrite Hno. intros [= <-]. by split.
  - rewrite Hno. intros [= <-]. split; [by intros df [= <-]|done].
  - rewrite (fetch_with_data _ _ _ _ ex c ohlcv) by done. cbv zeta.
    destruct (to_datetime _) as [|timestamp] eqn:Htd; [done|].
    apply Hlen in Htd. rewrite length_fmap in Htd.
    set (df := df_set_column _ _ _).
    assert (df_wf df) as Hwf by (by apply ohlcv_frame_wf).
    assert (∀ r', r' = None ∨ r' = Some df →
              (∀ df', r' = Some df' →
                      df_wf df' ∧ df_index_len df' = length (candle_close <$> c :: ohlcv))
              ∧ generate_signal g (fetched_value r')
                = match r' with
                  | None => inr HOLD
                  | Some _ =>
                      generate_signal g
                        (PyDataFrame (close_frame (candle_close <$> c :: ohlcv)))
                  end) as Hcases.
    { intros r' [-> | ->]; [by split|]. split.
      - intros df' [= <-]. split; [done|]. by rewrite length_fmap.
      - simpl. apply generate_signal_close_column; [done|].
        apply ohlcv_frame_close. }
    destruct output_dir as [dir|]; [|intros [= <-]; apply Hcases; by right].
    destruct (makedirs fs dir) as [[]|];
      [intros [= <-]; apply Hcases; by left | done |].
    simpl. destruct (to_csv fs _ _) as [[]|]; [ | done | ].
    + intros [= <-]. apply Hcases. by left.
    + intros [= <-]. apply Hcases. by right.
  - rewrite Hno. intros [= <-]. split; [by intros df [= <-]|done].
Qed.

Lemma fetched_frame_verdict_witness :
  generate_signal mavg_3_5
    (PyDataFrame (df_set_column (ohlcv_frame [mock_candle]) "timestamp"
                    [Some 1672531200000%Q]))
  = generate_signal mavg_3_5 (PyDataFrame (close_frame [Some 16050%Q])).
Proof.
  refine (proj2 (fetched_frame_verdict ascii_only inr fs_ok data_fetcher
                   "BTC/USDT" "1h" None 1 None mavg_3_5
                   (Some (df_set_column (ohlcv_frame [mock_candle]) "timestamp"
                            [Some 1672531200000%Q])) _ _)).
  - by intros column converted [= <-].
  - vm_compute. reflexivity.
Defined.

(** * [load_config] *)

Example load_config_f :
  load_config ascii_only (test_files true) "config/config.ini"
  = inr (Some ({[ "api_key" := CStr "TEST_KEY"; "api_secret" := CStr "TEST_SECRET";
                  "default_exchange_id" := CStr "test_exchange";
                  "use_testnet" := CBool true; "LOG_LEVEL" := CStr "DEBUG";
                  "LOG_FILE" := CStr "logs/test.log" ]}))
  ∧ str_strip ascii_only "  logs/app.log " = "logs/app.log".
Proof. split; vm_compute; reflexivity. Qed.

Section load_config.
Variable unicode_isspace : ascii → bool.
Implicit Types (config : ConfigParser) (files : ConfigFiles)
               (config_values : gmap string ConfigValue).

Local Ltac same_map :=
  apply map_eq; intros ?; rewrite !lookup_insert;
  repeat case_decide; simplify_eq; done.

Lemma load_general_settings config config_values :
  ∃ log_level log_file,
    log_level ≠ "" ∧ log_file ≠ ""
    ∧ load_general unicode_isspace config
        (<["LOG_FILE" := CStr "logs/app.log"]>
           (<["LOG_LEVEL" := CStr "INFO"]> config_values))
      = <["LOG_FILE" := CStr log_file]>
          (<["LOG_LEVEL" := CStr log_level]> config_values)
    ∧ ((∀ e, get_fallback config "GENERAL" "LOG_LEVEL" "INFO" ≠ inl e) →
       (∀ e, get_fallback config "GENERAL" "LOG_FILE" "logs/app.log" ≠ inl e) →
       log_level = log_setting unicode_isspace config "LOG_LEVEL" "INFO"
       ∧ log_file = log_setting unicode_isspace config "LOG_FILE" "logs/app.log").
Proof.
  unfold load_general, log_setting.
  destruct (get_fallback config "GENERAL" "LOG_LEVEL" "INFO") as [e|level].
  { exists "INFO", "logs/app.log". split; [done|]. split; [done|]. split.
    - destruct e; same_map.
    - intros Hne _. by destruct (Hne e). }
  destruct (get_fallback config "GENERAL" "LOG_FILE" "logs/app.log") as [e|file].
  { exists (match e with
            | NoSectionError _ =>
                if String.eqb (str_strip unicode_isspace level) "" then "INFO"
                else str_strip unicode_isspace level
            | _ => "INFO"
            end), "logs/app.log".
    split; [|split; [done|split]].
    - destruct e; try done.
      by destruct (String.eqb_spec (str_strip unicode_isspace level) "").
    - destruct e; destruct (String.eqb (str_strip unicode_isspace level) "");
        same_map.
    - intros _ Hne. by destruct (Hne e). }
  exists (if String.eqb (str_strip unicode_isspace level) "" then "INFO"
          else str_strip unicode_isspace level),
         (if String.eqb (str_strip unicode_isspace file) "" then "logs/app.log"
          else str_strip unicode_isspace file).
  split; [|split; [|split]].
  - by destruct (String.eqb_spec (str_strip unicode_isspace level) "").
  - by destruct (String.eqb_spec (str_strip unicode_isspace file) "").
  - destruct (String.eqb (str_strip unicode_isspace level) ""),
      (String.eqb (str_strip unicode_isspace file) ""); same_map.
  - done.
Qed.
End load_config.

Section load_config_outcomes.
Variable unicode_isspace : ascii → bool.
Implicit Types (config : ConfigParser) (files : ConfigFiles)
               (cfg : gmap string ConfigValue).

(** When [load_config] returns a dict. *)
Lemma load_config_Some files config_path cfg :
  load_config unicode_isspace files config_path = inr (Some cfg)
  ↔ ∃ config api_key api_secret default_exchange_id use_testnet,
      path_exists files config_path = true
      ∧ read files config_path = inr config
      ∧ has_section config "EXCHANGE" = true
      ∧ exchange_options config api_key api_secret default_exchange_id use_testnet
      ∧ cfg = if has_section config "GENERAL"
              then load_general unicode_isspace config
                     (config_dict api_key api_secret default_exchange_id
                                  use_testnet "INFO" "logs/app.log")
              else config_dict api_key api_secret default_exchange_id
                               use_testnet "INFO" "logs/app.log".
Proof.
  unfold load_config, exchange_options. split.
  - destruct (path_exists files config_path); [|done]. simpl.
    destruct (read files config_path) as [[]|config]; try done.
    destruct (has_section config "EXCHANGE") eqn:Hex; [|done]. simpl.
    destruct (get config "EXCHANGE" "API_KEY") as [|api_key] eqn:Hk; [done|].
    destruct (get config "EXCHANGE" "API_SECRET") as [|api_secret] eqn:Hs;
      [done|].
    destruct (get config "EXCHANGE" "DEFAULT_EXCHANGE_ID") as [|id] eqn:Hi;
      [done|].
    destruct (getboolean config "EXCHANGE" "USE_TESTNET") as [|use_testnet]
      eqn:Hb; [done|]. simpl.
    destruct (String.eqb_spec api_key ""); [done|].
    destruct (String.eqb_spec api_secret ""); [done|].
    destruct (String.eqb_spec id ""); [done|].
    intros Hcfg. exists config, api_key, api_secret, id, use_testnet.
    repeat split; try done.
    destruct (has_section config "GENERAL");
      injection Hcfg as Hcfg; rewrite <- Hcfg; reflexivity.
  - intros (config & api_key & api_secret & id & use_testnet & -> & -> & ->
            & (-> & -> & -> & -> & Hk & Hs & Hi) & ->).
    simpl.
    destruct (String.eqb_spec api_key ""); [done|].
    destruct (String.eqb_spec api_secret ""); [done|].
    destruct (String.eqb_spec id ""); [done|].
    by destruct (has_section config "GENERAL").
Qed.

(** [load_config] raises only what [read] raises outside
    [configparser]. *)
Lemma load_config_raises files config_path e :
  load_config unicode_isspace files config_path = inl e
  ↔ path_exists files config_path = true
    ∧ read files config_path = inl (NotConfigparserError e).
Proof.
  unfold load_config.
  destruct (path_exists files config_path); simpl; [|by split; [|intros []]].
  destruct (read files config_path) as [[]|config];
    try (by split; [|intros [_ [=]]]).
  - split; [by intros [= ->] | by intros [_ [= ->]]].
  - split; [|by intros [_ [=]]]. repeat case_match; done.
Qed.
End load_config_outcomes.

(** The dict of a successful [load_config]. *)
Lemma loaded_config_keys_aux unicode_isspace files config_path cfg :
  load_config unicode_isspace files config_path = inr (Some cfg) →
  ∃ api_key api_secret default_exchange_id use_testnet log_level log_file,
    cfg = config_dict api_key api_secret default_exchange_id use_testnet
                      log_level log_file
    ∧ log_level ≠ "" ∧ log_file ≠ "".
Proof.
  intros (config & k & s & i & b & _ & Hread & _ & Hopts & ->)%load_config_Some.
  destruct (has_section config "GENERAL").
  - destruct (load_general_settings unicode_isspace config
                (<["use_testnet" := CBool b]>
                   (<["default_exchange_id" := CStr i]>
                      (<["api_secret" := CStr s]> (<["api_key" := CStr k]> ∅)))))
      as (lvl & lf & Hlvl & Hlf & Heq & _).
    exists k, s, i, b, lvl, lf. split; [exact Heq | done].
  - by exists k, s, i, b, "INFO", "logs/app.log".
Qed.

(** X17.  A dict that [load_config] returns is complete: it has exactly
    the keys [api_key], [api_secret], [default_exchange_id],
    [use_testnet], [LOG_LEVEL] and [LOG_FILE]; the first three are the
    strings of the [EXCHANGE] section as read and are not empty,
    [use_testnet] is the boolean [getboolean] gave, and the two log
    settings are not empty. *)
Theorem loaded_config_complete unicode_isspace files config_path cfg :
  load_config unicode_isspace files config_path = inr (Some cfg) →
  ∃ config api_key api_secret default_exchange_id use_testnet log_level log_file,
    read files config_path = inr config
    ∧ exchange_options config api_key api_secret default_exchange_id use_testnet
    ∧ cfg = config_dict api_key api_secret default_exchange_id use_testnet
                        log_level log_file
    ∧ log_level ≠ "" ∧ log_file ≠ "".
Proof.
  intros (config & k & s & i & b & _ & Hread & _ & Hopts & ->)%load_config_Some.
  destruct (has_section config "GENERAL").
  - destruct (load_general_settings unicode_isspace config
                (<["use_testnet" := CBool b]>
                   (<["default_exchange_id" := CStr i]>
                      (<["api_secret" := CStr s]> (<["api_key" := CStr k]> ∅)))))
      as (lvl & lf & Hlvl & Hlf & Heq & _).
    exists config, k, s, i, b, lvl, lf.
    split; [done|]. split; [done|]. split; [exact Heq | done].
  - by exists config, k, s, i, b, "INFO", "logs/app.log".
Qed.

Lemma loaded_config_complete_witness :
  ∃ config api_key api_secret default_exchange_id use_testnet log_level log_file,
    read (test_files true) "config/config.ini" = inr config
    ∧ exchange_options config api_key api_secret default_exchange_id use_testnet
    ∧ ({[ "api_key" := CStr "TEST_KEY"; "api_secret" := CStr "TEST_SECRET";
          "default_exchange_id" := CStr "test_exchange";
          "use_testnet" := CBool true; "LOG_LEVEL" := CStr "DEBUG";
          "LOG_FILE" := CStr "logs/test.log" ]} : gmap string ConfigValue)
      = config_dict api_key api_secret default_exchange_id use_testnet
                    log_level log_file
    ∧ log_level ≠ "" ∧ log_file ≠ "".
Proof.
  apply (loaded_config_complete ascii_only (test_files true) "config/config.ini").
  vm_compute. reflexivity.
Defined.

(** X18.  The log settings of a loaded config: without a [GENERAL]
    section they are [INFO] and [logs/app.log]; with one, each is the
    stripped value of its option, or its default where the option is
    missing or blank. *)
Theorem loaded_log_settings unicode_isspace files config_path cfg config :
  load_config unicode_isspace files config_path = inr (Some cfg) →
  read files config_path = inr config →
  (has_section config "GENERAL" = false →
   cfg !! "LOG_LEVEL" = Some (CStr "INFO")
   ∧ cfg !! "LOG_FILE" = Some (CStr "logs/app.log"))
  ∧ (has_section config "GENERAL" = true →
     (∀ e, get_fallback config "GENERAL" "LOG_LEVEL" "INFO" ≠ inl e) →
     (∀ e, get_fallback config "GENERAL" "LOG_FILE" "logs/app.log" ≠ inl e) →
     cfg !! "LOG_LEVEL"
     = Some (CStr (log_setting unicode_isspace config "LOG_LEVEL" "INFO"))
     ∧ cfg !! "LOG_FILE"
       = Some (CStr (log_setting unicode_isspace config "LOG_FILE" "logs/app.log")))
  ∧ (∀ option default,
       (default = "INFO" ∨ default = "logs/app.log") →
       (∃ o s, get config "GENERAL" option = inl (NoOptionError o s))
       ∨ (∃ value, get config "GENERAL" option = inr value
                   ∧ str_strip unicode_isspace value = "") →
       log_setting unicode_isspace config option default = default).
Proof.
  intros (config' & k & s & i & b & _ & Hread & _ & Hopts & ->)%load_config_Some
    Hread'.
  rewrite Hread in Hread'. injection Hread' as <-.
  split; [|split].
  - intros ->. by unfold config_dict.
  - intros -> Hlvl Hlf.
    destruct (load_general_settings unicode_isspace config'
                (<["use_testnet" := CBool b]>
                   (<["default_exchange_id" := CStr i]>
                      (<["api_secret" := CStr s]> (<["api_key" := CStr k]> ∅)))))
      as (lvl & lf & _ & _ & Heq & Hset).
    destruct (Hset Hlvl Hlf) as [<- <-].
    unfold config_dict. rewrite Heq.
    by rewrite lookup_insert_ne, !lookup_insert_eq.
  - intros option default Hdef Hget. unfold log_setting, get_fallback.
    destruct Hget as [(o & s' & ->) | (value & -> & Hblank)].
    + by destruct Hdef as [-> | ->].
    + by rewrite Hblank.
Qed.

Lemma loaded_log_settings_witness :
  let cfg := config_dict "TEST_KEY" "TEST_SECRET" "test_exchange" true
                         "INFO" "logs/app.log" in
  cfg !! "LOG_LEVEL" = Some (CStr "INFO")
  ∧ cfg !! "LOG_FILE" = Some (CStr "logs/app.log").
Proof.
  refine (proj1 (loaded_log_settings ascii_only (test_files false)
                   "config/config.ini" _ (test_parser false) _ _) _).
  - vm_compute. reflexivity.
  - reflexivity.
  - reflexivity.
Defined.

(** X19.  [load_config] returns [None] exactly when the file does not
    exist, or reading it raises a [configparser] error, or it was read
    and the [EXCHANGE] section is missing or does not give all of its
    four options with the three strings non-empty and [USE_TESTNET] a
    boolean. *)
Theorem load_config_none_iff unicode_isspace files config_path :
  load_config unicode_isspace files config_path = inr None
  ↔ path_exists files config_path = false
    ∨ path_exists files config_path = true
      ∧ ((∃ e, read files config_path = inl e
               ∧ ∀ e', e ≠ NotConfigparserError e')
         ∨ ∃ config,
             read files config_path = inr config
             ∧ (has_section config "EXCHANGE" = false
                ∨ ¬ ∃ api_key api_secret default_exchange_id use_testnet,
                      exchange_options config api_key api_secret
                                       default_exchange_id use_testnet)).
Proof.
  pose proof (load_config_Some unicode_isspace files config_path) as HSome.
  pose proof (load_config_raises unicode_isspace files config_path) as Hraise.
  split.
  - intros Hnone.
    destruct (path_exists files config_path) eqn:Hpath; [right | by left].
    split; [done|].
    destruct (read files config_path) as [e|config] eqn:Hread.
    + left. exists e. split; [done|]. intros e' ->.
      rewrite (proj2 (Hraise e')) in Hnone; done.
    + right. exists config. split; [done|].
      destruct (has_section config "EXCHANGE") eqn:Hex; [right | by left].
      intros (k & s & i & b & Hopts).
      assert (∃ cfg, load_config unicode_isspace files config_path
                     = inr (Some cfg)) as [cfg Hcfg]; [|congruence].
      eexists. apply HSome. exists config, k, s, i, b.
      split; [done|]. split; [done|]. split; [done|]. split; [done|].
      reflexivity.
  - intros Hwhy. clear HSome Hraise.
    destruct (load_config unicode_isspace files config_path) as [e|[cfg|]] eqn:Hload;
      [| |done]; exfalso.
    + apply load_config_raises in Hload as [Hpath Hread].
      destruct Hwhy as [|[_ [(e0 & He0 & Hne) | (config & Hc & _)]]];
        [congruence | | congruence].
      rewrite Hread in He0. injection He0 as <-. by apply (Hne e).
    + apply load_config_Some in Hload
        as (config & k & s & i & b & Hpath & Hread & Hex & Hopts & _).
      destruct Hwhy as [|[_ [(e0 & He0 & _) | (config' & Hc & Hbad)]]];
        [congruence | congruence |].
      rewrite Hread in Hc. injection Hc as <-.
      destruct Hbad as [|Hbad]; [congruence|]. apply Hbad. by exists k, s, i, b.
Qed.

Section startup.
Variable unicode_isspace : ascii → bool.
Variable files : ConfigFiles.

Lemma config_dict_not_empty k s i b lvl lf : config_dict k s i b lvl lf ≠ ∅.
Proof. unfold config_dict. apply insert_non_empty. Qed.

Lemma config_dict_log_settings k s i b lvl lf :
  dict_get (config_dict k s i b lvl lf) "LOG_LEVEL" (CStr "INFO") = CStr lvl
  ∧ dict_get (config_dict k s i b lvl lf) "LOG_FILE" (CStr "logs/app.log") = CStr lf.
Proof.
  unfold dict_get, config_dict.
  by rewrite lookup_insert_ne, !lookup_insert_eq.
Qed.
End startup.

(** X20.  [main.py] cannot start without a loadable [config/config.ini]:
    when [load_config] returns [None] for it (the file is missing, say),
    the second call reads the same path, returns [None] again, and the
    module raises an [AttributeError] on [loaded_config.get] before any
    command runs.  With a loadable file the log settings passed to
    [setup_logger] are the two non-empty strings of the dict. *)
Theorem startup_needs_config unicode_isspace files :
  (load_config unicode_isspace files CONFIG_FILE_PATH = inr None →
   startup_log_settings unicode_isspace files
   = inl (OtherException
            "AttributeError: 'NoneType' object has no attribute 'get'"))
  ∧ (path_exists files CONFIG_FILE_PATH = false →
     startup_log_settings unicode_isspace files
     = inl (OtherException
              "AttributeError: 'NoneType' object has no attribute 'get'"))
  ∧ (∀ cfg,
       load_config unicode_isspace files CONFIG_FILE_PATH = inr (Some cfg) →
       ∃ log_level log_file,
         startup_log_settings unicode_isspace files
         = inr (CStr log_level, CStr log_file)
         ∧ cfg !! "LOG_LEVEL" = Some (CStr log_level)
         ∧ cfg !! "LOG_FILE" = Some (CStr log_file)
         ∧ log_level ≠ "" ∧ log_file ≠ "").
Proof.
  assert (load_config unicode_isspace files CONFIG_FILE_PATH = inr None →
          startup_log_settings unicode_isspace files
          = inl (OtherException
                   "AttributeError: 'NoneType' object has no attribute 'get'"))
    as Hnone.
  { intros Hload. unfold startup_log_settings. rewrite Hload. simpl.
    change "config/config.ini" with CONFIG_FILE_PATH. by rewrite Hload. }
  split; [done|]. split.
  - intros Hpath. apply Hnone. unfold load_config. by rewrite Hpath.
  - intros cfg Hload.
    destruct (loaded_config_keys_aux unicode_isspace files CONFIG_FILE_PATH cfg Hload)
      as (k & s & i & b & lvl & lf & -> & Hlvl & Hlf).
    exists lvl, lf. unfold startup_log_settings. rewrite Hload. simpl.
    destruct (decide (config_dict k s i b lvl lf = ∅)) as [He|_];
      [by apply config_dict_not_empty in He|]. simpl.
    destruct (config_dict_log_settings k s i b lvl lf) as [-> ->].
    split; [done|]. unfold config_dict.
    by rewrite lookup_insert_ne, !lookup_insert_eq.
Qed.

Lemma startup_needs_config_witness :
  startup_log_settings ascii_only
    {| path_exists _ := false; read _ := inr (test_parser true) |}
  = inl (OtherException
           "AttributeError: 'NoneType' object has no attribute 'get'")
  ∧ ∃ log_level log_file,
      startup_log_settings ascii_only (test_files true)
      = inr (CStr log_level, CStr log_file)
      ∧ config_dict "TEST_KEY" "TEST_SECRET" "test_exchange" true
                    "DEBUG" "logs/test.log" !! "LOG_LEVEL"
        = Some (CStr log_level)
      ∧ config_dict "TEST_KEY" "TEST_SECRET" "test_exchange" true
                    "DEBUG" "logs/test.log" !! "LOG_FILE"
        = Some (CStr log_file)
      ∧ log_level ≠ "" ∧ log_file ≠ "".
Proof.
  split.
  - apply (proj1 (proj2 (startup_needs_config ascii_only _))). reflexivity.
  - apply (proj2 (proj2 (startup_needs_config ascii_only (test_files true)))).
    vm_compute. reflexivity.
Defined.
